(** * Analytics Dashboard backend: authentication and role-based access control

    A shallow embedding of the authorization core of the repository:

    - [src/Backend.py], the single-file application (module [Backend] below);
    - [src/Backend/app/...], the modular application (module [App] below).

    Python dictionaries are finite maps ([gmap]), exceptions are a result
    type, the module-level user tables are threaded as explicit state, and
    the wall clock ([datetime.utcnow()]) is an explicit argument counted in
    whole seconds, the resolution of a token's [exp] claim. *)

From Stdlib Require Import ZArith Ascii String.
From stdpp Require Import gmap strings list fin_maps.

Local Open Scope string_scope.
Local Open Scope list_scope.
Local Open Scope Z_scope.

(** ** Exceptions and outcomes *)

(** The exception classes of [python-jose] seen by the code:
    [ExpiredSignatureError] and [JWTClaimsError] are subclasses of
    [JWTError]; [JWTError_base] stands for an instance of the base class
    itself (bad signature, wrong algorithm, malformed token). *)
Inductive jwt_error : Type :=
| JWTError_base
| ExpiredSignatureError
| JWTClaimsError.

(** The exceptions the code raises or catches. *)
Inductive exception : Type :=
| HTTPException (status_code : Z) (detail : string)
| ValueError (msg : string)
| JWTError (k : jwt_error).

#[global] Instance jwt_error_eq_dec : EqDecision jwt_error.
Proof. solve_decision. Defined.
#[global] Instance exception_eq_dec : EqDecision exception.
Proof. solve_decision. Defined.

(** [fastapi.status]. *)
Definition HTTP_400_BAD_REQUEST : Z := 400.
Definition HTTP_401_UNAUTHORIZED : Z := 401.
Definition HTTP_403_FORBIDDEN : Z := 403.

(** The outcome of running a piece of Python code: a value, or a raised
    exception. *)
Inductive outcome (A : Type) : Type :=
| Ok (a : A)
| Raise (e : exception).
Arguments Ok {A} a.
Arguments Raise {A} e.

Definition is_ok {A} (r : outcome A) : bool :=
  match r with Ok _ => true | Raise _ => false end.

(** ** Code that reads and writes a module-level dictionary

    A computation over a store of type [S] returns its outcome, the store
    it leaves behind, and the list of dictionary operations it performed,
    in order.  A raised exception keeps the writes made before it. *)
Inductive store_op : Type :=
| OpGet        (* d.get(k) *)
| OpContains   (* k in d *)
| OpLen        (* len(d) *)
| OpValues     (* d.values() *)
| OpSetItem    (* d[k] = v *)
| OpSetField.  (* d[k][field] = v *)

#[global] Instance store_op_eq_dec : EqDecision store_op.
Proof. solve_decision. Defined.

Definition M (S A : Type) : Type := S → outcome A * S * list store_op.

Definition pure {S A} (a : A) : M S A := λ s, (Ok a, s, []).
Definition raise {S A} (e : exception) : M S A := λ s, (Raise e, s, []).
Definition bind {S A B} (m : M S A) (k : A → M S B) : M S B :=
  λ s, match m s with
       | (Ok a, s', t) => let '(r, s'', t') := k a s' in (r, s'', t ++ t')
       | (Raise e, s', t) => (Raise e, s', t)
       end.

(** [try: m  except <class>: h], where [catches e] tells whether [e] is an
    instance of the class named in the [except] clause. *)
Definition try_except {S A} (m : M S A) (catches : exception → bool)
    (h : exception → M S A) : M S A :=
  λ s, match m s with
       | (Raise e, s', t) =>
           if catches e then let '(r, s'', t') := h e s' in (r, s'', t ++ t')
           else (Raise e, s', t)
       | r => r
       end.

(** A store-free computation used inside a store computation. *)
Definition lift {S A} (r : outcome A) : M S A := λ s, (r, s, []).

(** One dictionary operation: [f] computes the result and the new store. *)
Definition store_access {S A} (op : store_op) (f : S → A * S) : M S A :=
  λ s, let '(a, s') := f s in (Ok a, s', [op]).

#[global] Instance M_ret S : MRet (M S) := λ A, @pure S A.
#[global] Instance M_bind S : MBind (M S) := λ A B k m, bind m k.

Definition result_of {S A} (x : outcome A * S * list store_op) : outcome A := x.1.1.
Definition store_of {S A} (x : outcome A * S * list store_op) : S := x.1.2.
Definition trace_of {S A} (x : outcome A * S * list store_op) : list store_op := x.2.

(** [fastapi.Depends]: the dependency runs first; the handler runs only on
    its result. *)
Definition Depends {S A B} (dependency : M S A) (handler : A → M S B) : M S B :=
  bind dependency handler.

(** ** Roles

    [class UserRole(str, Enum)], declared identically in [src/Backend.py]
    and in [app/models/user.py].  The members are strings: they hash and
    compare like their values, so a dictionary keyed by [UserRole] is a
    dictionary keyed by those strings. *)
Inductive UserRole : Type := ADMIN | MANAGER | ANALYST | VIEWER.

#[global] Instance UserRole_eq_dec : EqDecision UserRole.
Proof. solve_decision. Defined.

Definition value (r : UserRole) : string :=
  match r with
  | ADMIN => "admin"
  | MANAGER => "manager"
  | ANALYST => "analyst"
  | VIEWER => "viewer"
  end.

(** ** [app/core/permissions.py] *)
Module PermissionService.

(** [ROLE_PERMISSIONS: Dict[UserRole, List[str]]]. *)
Definition ROLE_PERMISSIONS : gmap string (list string) :=
  <[value ADMIN := ["dashboard:read"; "analytics:read"; "reports:export"; "users:manage"]]>
  (<[value MANAGER := ["dashboard:read"; "analytics:read"; "reports:export"]]>
  (<[value ANALYST := ["dashboard:read"; "analytics:read"]]>
  (<[value VIEWER := ["dashboard:read"]]> ∅))).

(** [cls.ROLE_PERMISSIONS.get(user_role, [])]. *)
Definition permissions_of (user_role : string) : list string :=
  default [] (ROLE_PERMISSIONS !! user_role).

(** [check_permission]: [required_permission in user_permissions]. *)
Definition check_permission (user_role : string) (required_permission : string) : bool :=
  bool_decide (required_permission ∈ permissions_of user_role).

(** [require_permission]: raises 403 when the check fails.  The detail
    is the f-string ["Insufficient permissions. Required: {required_permission}"]. *)
Definition require_permission (user_role : string) (required_permission : string)
  : outcome unit :=
  if negb (check_permission user_role required_permission)
  then Raise (HTTPException HTTP_403_FORBIDDEN
                ("Insufficient permissions. Required: " +:+ required_permission))
  else Ok tt.

End PermissionService.

(** ** The JSON Web Token library ([jose.jwt])

    A symbolic model of the library's contract.  A bearer credential is
    either a well-formed token, which records the algorithm and the key it
    was signed with together with its claims, or any other string.  The
    signature of a well-formed token verifies under a key exactly when it
    is the key the token was signed with. *)
Module jwt.

(** Claim values.  [encode] turns a [datetime] in [exp] into integer
    seconds since the epoch, so [exp] is carried as an integer.  The
    claims the application writes are strings and integers; the other
    JSON values (null, booleans, floats, lists, objects) are not
    represented. *)
Inductive claim : Type :=
| ClaimStr (s : string)
| ClaimInt (n : Z).

#[global] Instance claim_eq_dec : EqDecision claim.
Proof. solve_decision. Defined.

Inductive bearer : Type :=
| Signed (algorithm : string) (key : string) (claims : gmap string claim)
| Opaque (raw : string).

(** [jwt.encode(claims, key, algorithm=...)]. *)
Definition encode (claims : gmap string claim) (key : string) (algorithm : string)
  : bearer :=
  Signed algorithm key claims.

(** The checks of [decode] on the two registered claims the application
    writes: an integer [exp] must not lie before [now], and [sub] must be a
    string.  On the tokens [create_access_token] issues from a [sub] alone
    this is what the library does.  The library's reading of a string
    [exp] through [int()] (here every string [exp] is refused) and its
    checks on [iat], [nbf], [aud], [jti] and [at_hash] are not modelled. *)
Definition validate_claims (now : Z) (claims : gmap string claim) : outcome unit :=
  match claims !! "exp" with
  | Some (ClaimStr _) => Raise (JWTError JWTClaimsError)
  | Some (ClaimInt exp) =>
      if exp <? now then Raise (JWTError ExpiredSignatureError)
      else match claims !! "sub" with
           | Some (ClaimInt _) => Raise (JWTError JWTClaimsError)
           | _ => Ok tt
           end
  | None =>
      match claims !! "sub" with
      | Some (ClaimInt _) => Raise (JWTError JWTClaimsError)
      | _ => Ok tt
      end
  end.

(** [jwt.decode(token, key, algorithms=[...])] evaluated at time [now]. *)
Definition decode (now : Z) (token : bearer) (key : string) (algorithms : list string)
  : outcome (gmap string claim) :=
  match token with
  | Opaque _ => Raise (JWTError JWTError_base)
  | Signed alg k claims =>
      if negb (bool_decide (alg ∈ algorithms)) then Raise (JWTError JWTError_base)
      else if negb (bool_decide (k = key)) then Raise (JWTError JWTError_base)
      else match validate_claims now claims with
           | Ok _ => Ok claims
           | Raise e => Raise e
           end
  end.

End jwt.

(** [isinstance(e, JWTError)], the test of [except JWTError]. *)
Definition is_JWTError (e : exception) : bool :=
  match e with JWTError _ => true | _ => false end.

(** [isinstance(e, ValueError)], the test of [except ValueError]. *)
Definition is_ValueError (e : exception) : bool :=
  match e with ValueError _ => true | _ => false end.

(** [str(e)] for the exceptions that carry a message. *)
Definition str_of_exception (e : exception) : string :=
  match e with
  | ValueError msg => msg
  | HTTPException _ d => d
  | JWTError _ => ""
  end.

(** ** The password hashing context ([passlib.context.CryptContext])

    [pwd_context.hash] draws a fresh salt on every call; the salt is an
    explicit argument here. *)
Class CryptContext : Type := {
  pwd_hash : string → string → string;    (* salt, plaintext *)
  pwd_verify : string → string → bool     (* plaintext, digest *)
}.

(** ** Process-wide configuration *)
Class Settings : Type := {
  SECRET_KEY : string;
  ALGORITHM : string;
  ACCESS_TOKEN_EXPIRE_MINUTES : Z
}.

(** [timedelta(minutes=m)] in seconds. *)
Definition timedelta_minutes (m : Z) : Z := 60 * m.

(** ** JSON values returned by handlers *)
#[local] Unset Elimination Schemes.
Inductive json : Type :=
| JStr (s : string)
| JInt (n : Z)
| JTime (t : Z)     (* [datetime.isoformat()] of the instant [t] *)
| JList (l : list json)
| JDict (l : list (string * json)).
#[local] Set Elimination Schemes.

(** The fixture rows of the export handlers. *)
Definition report_row (date : string) (revenue orders : Z) : json :=
  JDict [("date", JStr date); ("revenue", JInt revenue); ("orders", JInt orders)].

(** The randomly generated dashboard fixtures, an opaque provider: the
    authorization core only calls into it after its checks have passed. *)
Class AnalyticsProvider : Type := {
  DashboardData : Type;
  (* [generate_sample_data()] of [src/Backend.py] *)
  generate_sample_data : DashboardData;
  (* [detailed_data.metrics.extend(detailed_metrics)] *)
  extend_detailed_metrics : DashboardData → DashboardData;
  (* [analytics_service.get_dashboard_data(user_role)] *)
  get_dashboard_data_for : string → DashboardData
}.

(** ** [src/Backend.py]: the single-file application *)
Module Backend.

(** The constants at the head of the file. *)
#[local] Instance settings : Settings := {|
  SECRET_KEY := "your-secret-key-change-in-production";
  ALGORITHM := "HS256";
  ACCESS_TOKEN_EXPIRE_MINUTES := 30
|}.

(** A value of [fake_users_db]. *)
Record UserRecord : Type := mkUserRecord {
  user_id : nat;
  email : string;
  full_name : string;
  role : UserRole;
  hashed_password : string;
  is_active : bool;
  created_at : Z
}.

(** [class User(BaseModel)], the response model. *)
Record User : Type := mkUser {
  User_id : nat;
  User_email : string;
  User_full_name : string;
  User_role : UserRole;
  User_is_active : bool;
  User_created_at : Z
}.

(** [class UserCreate(BaseModel)]. *)
Record UserCreate : Type := mkUserCreate {
  uc_email : string;
  uc_password : string;
  uc_full_name : string;
  uc_role : UserRole
}.

(** Building a [UserCreate] from a request body: the field [role] has
    the default [UserRole.VIEWER]. *)
Definition UserCreate_init (email password full_name : string) (role : option UserRole)
  : UserCreate :=
  mkUserCreate email password full_name (default VIEWER role).

(** [class UserLogin(BaseModel)]. *)
Record UserLogin : Type := mkUserLogin {
  ul_email : string;
  ul_password : string
}.

(** [class Token(BaseModel)]. *)
Record Token : Type := mkToken {
  access_token : jwt.bearer;
  token_type : string;
  user : User
}.

(** [class ReportRequest(BaseModel)]; [format] defaults to ["json"]. *)
Record ReportRequest : Type := mkReportRequest {
  report_type : string;
  date_range : list (string * string);
  format : string
}.

(** The response model built from a stored record, as every handler
    does field by field. *)
Definition User_of (u : UserRecord) : User :=
  mkUser (user_id u) (email u) (full_name u) (role u) (is_active u) (created_at u).

(** The three records [fake_users_db] starts with, created at [t0]. *)
Definition seeded_hash : string :=
  "$2b$12$EixZaYVK1fsbw1ZfbX3OXePaWxn96p36WQoeG6Lruj3vjPGga31lW".

Definition fake_users_db (t0 : Z) : gmap string UserRecord :=
  <["analyst@example.com" :=
      mkUserRecord 3 "analyst@example.com" "Data Analyst" ANALYST seeded_hash true t0]>
  (<["manager@example.com" :=
      mkUserRecord 2 "manager@example.com" "Manager User" MANAGER seeded_hash true t0]>
  (<["admin@example.com" :=
      mkUserRecord 1 "admin@example.com" "Admin User" ADMIN seeded_hash true t0]> ∅)).

(** Operations on the dictionary. *)
Definition db_get (k : jwt.claim) : M (gmap string UserRecord) (option UserRecord) :=
  store_access OpGet (λ db,
    (match k with jwt.ClaimStr s => db !! s | jwt.ClaimInt _ => None end, db)).

Definition db_contains (k : string) : M (gmap string UserRecord) bool :=
  store_access OpContains (λ db, (bool_decide (is_Some (db !! k)), db)).

Definition db_len : M (gmap string UserRecord) nat :=
  store_access OpLen (λ db, (size db, db)).

(** [fake_users_db.values()], in the enumeration order of the map (the
    Python dictionary keeps insertion order, which a [gmap] does not). *)
Definition db_values : M (gmap string UserRecord) (list UserRecord) :=
  store_access OpValues (λ db, ((map_to_list db).*2, db)).

Definition db_setitem (k : string) (v : UserRecord) : M (gmap string UserRecord) unit :=
  store_access OpSetItem (λ db, (tt, <[k := v]> db)).

(** [role_hierarchy], the dictionary local to [check_permission]. *)
Definition role_hierarchy : gmap string Z :=
  <[value ADMIN := 4]> (<[value MANAGER := 3]>
  (<[value ANALYST := 2]> (<[value VIEWER := 1]> ∅))).

(** [role_hierarchy.get(r, 0)]. *)
Definition level (r : UserRole) : Z := default 0 (role_hierarchy !! value r).

(** [check_permission(user, required_role)]. *)
Definition check_permission (user : UserRecord) (required_role : UserRole)
  : outcome unit :=
  let user_level := level (role user) in
  let required_level := level required_role in
  if user_level <? required_level
  then Raise (HTTPException HTTP_403_FORBIDDEN "Insufficient permissions")
  else Ok tt.

(** The functions below are stated for any configuration; [settings] is
    the one of the source. *)
Section WithContext.
Context {crypt : CryptContext} {cfg : Settings} {analytics : AnalyticsProvider}.

(** [pwd_context.verify(plain_password, hashed_password)]. *)
Definition verify_password (plain_password hashed_password : string) : bool :=
  pwd_verify plain_password hashed_password.

(** [pwd_context.hash(password)]. *)
Definition get_password_hash (salt password : string) : string :=
  pwd_hash salt password.

(** [create_access_token(data)] called at time [now]. *)
Definition create_access_token (now : Z) (data : gmap string jwt.claim) : jwt.bearer :=
  let to_encode := data in
  let expire := now + timedelta_minutes ACCESS_TOKEN_EXPIRE_MINUTES in
  let to_encode := <["exp" := jwt.ClaimInt expire]> to_encode in
  jwt.encode to_encode SECRET_KEY ALGORITHM.

(** [authenticate_user(email, password)]. *)
Definition authenticate_user (email password : string)
  : M (gmap string UserRecord) (option UserRecord) :=
  user ← db_get (jwt.ClaimStr email);
  match user with
  | None => mret None
  | Some u =>
      if negb (verify_password password (hashed_password u)) then mret None
      else mret (Some u)
  end.

Definition credentials_exception : exception :=
  HTTPException HTTP_401_UNAUTHORIZED "Could not validate credentials".

(** [get_current_user(credentials)] evaluated at time [now]. *)
Definition get_current_user (now : Z) (credentials : jwt.bearer)
  : M (gmap string UserRecord) UserRecord :=
  try_except
    (payload ← lift (jwt.decode now credentials SECRET_KEY [ALGORITHM]);
     match payload !! "sub" with
     | None => raise credentials_exception
     | Some email =>
         user ← db_get email;
         match user with
         | None => raise credentials_exception
         | Some u => mret u
         end
     end)
    is_JWTError
    (λ _, raise credentials_exception).

(** [register(user_data)]; [salt] is the salt drawn by the hasher. *)
Definition register (now : Z) (salt : string) (user_data : UserCreate)
  : M (gmap string UserRecord) Token :=
  present ← db_contains (uc_email user_data);
  if (present : bool) then
    raise (HTTPException HTTP_400_BAD_REQUEST "Email already registered")
  else
    let hashed := get_password_hash salt (uc_password user_data) in
    n ← db_len;
    let new_user :=
      mkUserRecord (n + 1) (uc_email user_data) (uc_full_name user_data)
        (uc_role user_data) hashed true now in
    _ ← db_setitem (uc_email user_data) new_user;
    let access_token :=
      create_access_token now {["sub" := jwt.ClaimStr (uc_email user_data)]} in
    mret (mkToken access_token "bearer" (User_of new_user)).

(** [login(user_credentials)]. *)
Definition login (now : Z) (user_credentials : UserLogin)
  : M (gmap string UserRecord) Token :=
  user ← authenticate_user (ul_email user_credentials) (ul_password user_credentials);
  match user with
  | None =>
      raise (HTTPException HTTP_401_UNAUTHORIZED "Incorrect email or password")
  | Some u =>
      let access_token :=
        create_access_token now {["sub" := jwt.ClaimStr (ul_email user_credentials)]} in
      mret (mkToken access_token "bearer" (User_of u))
  end.

(** The handlers proper, given the resolved [current_user]. *)
Definition get_current_user_info_body (current_user : UserRecord)
  : M (gmap string UserRecord) User :=
  mret (User_of current_user).

Definition get_dashboard_data_body (current_user : UserRecord)
  : M (gmap string UserRecord) DashboardData :=
  mret generate_sample_data.

Definition get_detailed_analytics_body (current_user : UserRecord)
  : M (gmap string UserRecord) DashboardData :=
  _ ← lift (check_permission current_user ANALYST);
  let detailed_data := generate_sample_data in
  mret (extend_detailed_metrics detailed_data).

Definition export_report_body (now : Z) (report_request : ReportRequest)
    (current_user : UserRecord) : M (gmap string UserRecord) json :=
  _ ← lift (check_permission current_user MANAGER);
  let report_data :=
    JDict [("report_type", JStr (report_type report_request));
           ("date_range",
            JDict ((λ kv : string * string, (kv.1, JStr kv.2)) <$> date_range report_request));
           ("generated_at", JTime now);
           ("generated_by", JStr (full_name current_user));
           ("data", JList [report_row "2024-01-01" 4500 125;
                           report_row "2024-01-02" 3800 98;
                           report_row "2024-01-03" 5200 156])] in
  if bool_decide (format report_request = "csv") then
    mret (JDict [("message", JStr "CSV export feature would be implemented here");
                 ("data", report_data)])
  else mret report_data.

Definition get_users_body (current_user : UserRecord)
  : M (gmap string UserRecord) (list User) :=
  _ ← lift (check_permission current_user ADMIN);
  values ← db_values;
  mret (User_of <$> values).

(** The routes: each handler behind [Depends(get_current_user)]. *)
Definition get_current_user_info (now : Z) (credentials : jwt.bearer) :=
  Depends (get_current_user now credentials) get_current_user_info_body.

Definition get_dashboard_data (now : Z) (credentials : jwt.bearer) :=
  Depends (get_current_user now credentials) get_dashboard_data_body.

Definition get_detailed_analytics (now : Z) (credentials : jwt.bearer) :=
  Depends (get_current_user now credentials) get_detailed_analytics_body.

Definition export_report (now : Z) (report_request : ReportRequest)
    (credentials : jwt.bearer) :=
  Depends (get_current_user now credentials) (export_report_body now report_request).

Definition get_users (now : Z) (credentials : jwt.bearer) :=
  Depends (get_current_user now credentials) get_users_body.

End WithContext.

End Backend.

(** ** [src/Backend/app]: the modular application *)
Module App.

(** A value of [DatabaseService.users_db]. *)
Record UserRecord : Type := mkUserRecord {
  user_id : nat;
  email : string;
  hashed_password : string;
  full_name : string;
  role : UserRole;
  is_active : bool;
  created_at : Z;
  last_login : option Z
}.

(** [user["last_login"] = now]: the record with that one key rebound. *)
Definition with_last_login (now : Z) (u : UserRecord) : UserRecord :=
  mkUserRecord (user_id u) (email u) (hashed_password u) (full_name u) (role u)
    (is_active u) (created_at u) (Some now).

(** [app/schemas/user.py]: [UserCreate(UserBase)]. *)
Record UserCreate : Type := mkUserCreate {
  uc_email : string;
  uc_full_name : string;
  uc_role : UserRole;
  uc_password : string
}.

(** Building a [UserCreate] from a request body: [UserBase.role] has
    the default [UserRole.VIEWER]. *)
Definition UserCreate_init (email password full_name : string) (role : option UserRole)
  : UserCreate :=
  mkUserCreate email full_name (default VIEWER role) password.

(** The [Field] length bounds of the schema: [full_name] has 1 to 255
    characters and [password] 8 to 100.  The framework checks them, and
    the shape of the e-mail address, before the handler is called. *)
Definition UserCreate_fields_valid (user_data : UserCreate) : bool :=
  let n := String.length (uc_full_name user_data) in
  let p := String.length (uc_password user_data) in
  ((1 <=? n) && (n <=? 255) && (8 <=? p) && (p <=? 100))%nat.

Record UserLogin : Type := mkUserLogin {
  ul_email : string;
  ul_password : string
}.

(** [UserResponse(UserBase)]. *)
Record UserResponse : Type := mkUserResponse {
  ur_email : string;
  ur_full_name : string;
  ur_role : UserRole;
  ur_id : nat;
  ur_is_active : bool;
  ur_created_at : Z;
  ur_last_login : option Z
}.

(** The [UserResponse] built from the keys of a stored record. *)
Definition UserResponse_of (u : UserRecord) : UserResponse :=
  mkUserResponse (email u) (full_name u) (role u) (user_id u) (is_active u)
    (created_at u) (last_login u).

(** [Token]; [token_type] defaults to ["bearer"]. *)
Record Token : Type := mkToken {
  access_token : jwt.bearer;
  token_type : string;
  user : UserResponse
}.

(** [app/schemas/analytics.py]: [ReportRequest]. *)
Record ReportRequest : Type := mkReportRequest {
  report_type : string;
  date_range : list (string * string);
  format : string
}.

(** *** [app/services/auth_service.py] (not among the sources) *)
Module auth_service.

(** The character classes of the password policy. *)
Definition is_upper (c : ascii) : bool :=
  let n := nat_of_ascii c in ((65 <=? n) && (n <=? 90))%nat.
Definition is_lower (c : ascii) : bool :=
  let n := nat_of_ascii c in ((97 <=? n) && (n <=? 122))%nat.
Definition is_digit (c : ascii) : bool :=
  let n := nat_of_ascii c in ((48 <=? n) && (n <=? 57))%nat.

(** Modelled from the spec: [auth_service.validate_password_strength]
    is absent from the sources.  The policy of the registration flow
    is: length at least 8, containing an upper-case letter, a
    lower-case letter and at least one digit.  Letters and digits are
    the ASCII ones. *)
Definition validate_password_strength (password : string) : bool :=
  let cs := list_ascii_of_string password in
  (8 <=? String.length password)%nat
  && existsb is_upper cs && existsb is_lower cs && existsb is_digit cs.

Section WithContext.
Context {crypt : CryptContext} {cfg : Settings}.

(** Modelled from the spec: [auth_service.verify_password] is
    absent; PasswordHasher.verify is the hashing context's own
    comparison. *)
Definition verify_password (plain_password hashed_password : string) : bool :=
  pwd_verify plain_password hashed_password.

(** Modelled from the spec: [auth_service.get_password_hash] is
    absent; PasswordHasher.hash is the salted hash of the context. *)
Definition get_password_hash (salt password : string) : string :=
  pwd_hash salt password.

(** Modelled from the spec: [auth_service.create_access_token] is
    absent.  TokenService.issue signs a payload that embeds the
    given claims and [expiresAt = now + TTL]. *)
Definition create_access_token (now : Z) (data : gmap string jwt.claim)
  : jwt.bearer :=
  jwt.encode
    (<["exp" := jwt.ClaimInt (now + timedelta_minutes ACCESS_TOKEN_EXPIRE_MINUTES)]> data)
    SECRET_KEY ALGORITHM.

(** Modelled from the spec: [auth_service.verify_token] is absent.
    TokenService.verify fails when the signature check fails, the
    payload is malformed, the subject claim is absent, or the token
    has expired; the gate reports each of these as Unauthenticated
    (401).  The caller reads [sub] from the returned payload.  The
    spec gives no detail text; the one of [src/Backend.py] is used. *)
Definition verify_token (now : Z) (token : jwt.bearer)
  : outcome (gmap string jwt.claim) :=
  match jwt.decode now token SECRET_KEY [ALGORITHM] with
  | Ok payload =>
      match payload !! "sub" with
      | Some _ => Ok payload
      | None =>
          Raise (HTTPException HTTP_401_UNAUTHORIZED "Could not validate credentials")
      end
  | Raise _ =>
      Raise (HTTPException HTTP_401_UNAUTHORIZED "Could not validate credentials")
  end.

End WithContext.
End auth_service.

(** *** [app/core/database.py]: [DatabaseService] *)
Module db_service.

Definition demo_users : list (string * string * string * UserRole) :=
  [("admin@example.com", "secret", "Admin User", ADMIN);
   ("manager@example.com", "secret", "Manager User", MANAGER);
   ("analyst@example.com", "secret", "Data Analyst", ANALYST);
   ("viewer@example.com", "secret", "Viewer User", VIEWER)].

Section WithContext.
Context {crypt : CryptContext}.

(** [_create_demo_users], run by [__init__] on the empty dictionary
    at time [now]; [salt i] is the salt drawn for the [i]-th user. *)
Definition create_demo_users (now : Z) (salt : nat → string)
  : gmap string UserRecord :=
  foldl (λ db (iu : nat * (string * string * string * UserRole)),
           let '(i, (e, pw, fn, r)) := iu in
           <[e := mkUserRecord i e (auth_service.get_password_hash (salt i) pw)
                    fn r true now None]> db)
        ∅ (zip (seq 1 4) demo_users).

(** [get_user_by_email(email)]: [self.users_db.get(email)]; the
    argument is whatever [payload.get("sub")] gave. *)
Definition get_user_by_email (email : option jwt.claim)
  : M (gmap string UserRecord) (option UserRecord) :=
  store_access OpGet (λ db,
    (match email with
     | Some (jwt.ClaimStr s) => db !! s
     | _ => None
     end, db)).

(** [create_user(user_data)]. *)
Definition create_user (now : Z) (salt : string) (user_data : UserCreate)
  : M (gmap string UserRecord) UserRecord :=
  present ← store_access OpContains
              (λ db, (bool_decide (is_Some (db !! uc_email user_data)), db));
  if (present : bool) then raise (ValueError "Email already registered")
  else
    n ← store_access OpLen (λ db, (size db, db));
    let user_id := (n + 1)%nat in
    let new_user :=
      mkUserRecord user_id (uc_email user_data)
        (auth_service.get_password_hash salt (uc_password user_data))
        (uc_full_name user_data) (uc_role user_data) true now None in
    _ ← store_access OpSetItem
          (λ db, (tt, <[uc_email user_data := new_user]> db));
    mret new_user.

(** [update_last_login(email)]. *)
Definition update_last_login (now : Z) (email : string)
  : M (gmap string UserRecord) unit :=
  present ← store_access OpContains (λ db, (bool_decide (is_Some (db !! email)), db));
  if (present : bool) then
    store_access OpSetField (λ db, (tt, alter (with_last_login now) email db))
  else mret tt.

End WithContext.
End db_service.

(** *** [app/api/deps.py] *)
Module deps.
Section WithContext.
Context {crypt : CryptContext} {cfg : Settings}.

(** [get_current_user(credentials)] evaluated at time [now]. *)
Definition get_current_user (now : Z) (credentials : jwt.bearer)
  : M (gmap string UserRecord) UserRecord :=
  payload ← lift (auth_service.verify_token now credentials);
  let email := payload !! "sub" in
  user ← db_service.get_user_by_email email;
  match user with
  | None =>
      raise (HTTPException HTTP_401_UNAUTHORIZED "User not found or inactive")
  | Some u =>
      if negb (is_active u) then
        raise (HTTPException HTTP_401_UNAUTHORIZED "User not found or inactive")
      else mret u
  end.

(** [get_current_active_user], behind [Depends(get_current_user)]. *)
Definition get_current_active_user_body (current_user : UserRecord)
  : M (gmap string UserRecord) UserRecord :=
  if negb (is_active current_user) then
    raise (HTTPException HTTP_400_BAD_REQUEST "Inactive user")
  else mret current_user.

Definition get_current_active_user (now : Z) (credentials : jwt.bearer)
  : M (gmap string UserRecord) UserRecord :=
  Depends (get_current_user now credentials) get_current_active_user_body.

End WithContext.
End deps.

(** *** [app/api/v1/endpoints/auth.py] *)
Module auth.
Section WithContext.
Context {crypt : CryptContext} {cfg : Settings}.

Definition weak_password_exception : exception :=
  HTTPException HTTP_400_BAD_REQUEST
    "Password must be at least 8 characters with uppercase, lowercase, and number".

(** [register_user(user_data)]. *)
Definition register_user (now : Z) (salt : string) (user_data : UserCreate)
  : M (gmap string UserRecord) Token :=
  if negb (auth_service.validate_password_strength (uc_password user_data)) then
    raise weak_password_exception
  else
    try_except
      (new_user ← db_service.create_user now salt user_data;
       let access_token :=
         auth_service.create_access_token now
           {["sub" := jwt.ClaimStr (email new_user)]} in
       let user_response := UserResponse_of new_user in
       mret (mkToken access_token "bearer" user_response))
      is_ValueError
      (λ e, raise (HTTPException HTTP_400_BAD_REQUEST (str_of_exception e))).

Definition invalid_credentials_exception : exception :=
  HTTPException HTTP_401_UNAUTHORIZED "Invalid email or password".

Definition inactive_account_exception : exception :=
  HTTPException HTTP_400_BAD_REQUEST "Inactive user account".

(** [login_user(credentials)].  [user] is the stored dictionary
    itself, so the response built after [update_last_login] shows
    the timestamp just written. *)
Definition login_user (now : Z) (credentials : UserLogin)
  : M (gmap string UserRecord) Token :=
  user ← db_service.get_user_by_email (Some (jwt.ClaimStr (ul_email credentials)));
  match user with
  | None => raise invalid_credentials_exception
  | Some u =>
      if negb (auth_service.verify_password (ul_password credentials)
                 (hashed_password u)) then
        raise invalid_credentials_exception
      else if negb (is_active u) then
        raise inactive_account_exception
      else
        _ ← db_service.update_last_login now (ul_email credentials);
        let access_token :=
          auth_service.create_access_token now {["sub" := jwt.ClaimStr (email u)]} in
        let u := with_last_login now u in
        mret (mkToken access_token "bearer" (UserResponse_of u))
  end.

(** [get_current_user_info]. *)
Definition get_current_user_info (now : Z) (credentials : jwt.bearer)
  : M (gmap string UserRecord) UserResponse :=
  Depends (deps.get_current_active_user now credentials)
          (λ current_user, mret (UserResponse_of current_user)).

End WithContext.
End auth.

(** *** [app/api/v1/endpoints/dashboard.py], [analytics.py] and the
    [reports] router that follows it in the same file *)
Module endpoints.
Section WithContext.
Context {crypt : CryptContext} {cfg : Settings} {analytics : AnalyticsProvider}.

Definition get_dashboard_data_body (current_user : UserRecord)
  : M (gmap string UserRecord) DashboardData :=
  _ ← lift (PermissionService.require_permission
              (value (role current_user)) "dashboard:read");
  mret (get_dashboard_data_for (value (role current_user))).

Definition get_detailed_analytics_body (current_user : UserRecord)
  : M (gmap string UserRecord) DashboardData :=
  _ ← lift (PermissionService.require_permission
              (value (role current_user)) "analytics:read");
  mret (get_dashboard_data_for (value (role current_user))).

Definition export_report_body (report_request : ReportRequest)
    (current_user : UserRecord) : M (gmap string UserRecord) json :=
  _ ← lift (PermissionService.require_permission
              (value (role current_user)) "reports:export");
  mret (JDict [("message", JStr "Report generated successfully");
               ("report_type", JStr (report_type report_request));
               ("format", JStr (format report_request));
               ("generated_by", JStr (full_name current_user));
               ("data", JList [report_row "2024-01-01" 4500 125;
                               report_row "2024-01-02" 3800 98])]).

(** The routes: each handler behind [Depends(get_current_active_user)]. *)
Definition get_dashboard_data (now : Z) (credentials : jwt.bearer) :=
  Depends (deps.get_current_active_user now credentials) get_dashboard_data_body.

Definition get_detailed_analytics (now : Z) (credentials : jwt.bearer) :=
  Depends (deps.get_current_active_user now credentials) get_detailed_analytics_body.

Definition export_report (now : Z) (report_request : ReportRequest)
    (credentials : jwt.bearer) :=
  Depends (deps.get_current_active_user now credentials)
          (export_report_body report_request).

End WithContext.
End endpoints.

End App.

(** ** The gate as one computation, and values the handlers build *)

(** The per-request pipeline of the modular application, with the
    permission check of an operation that requires [required_permission]. *)
Definition app_auth_gate {cfg : Settings}
    (now : Z) (credentials : jwt.bearer) (required_permission : option string)
  : M (gmap string App.UserRecord) App.UserRecord :=
  Depends (App.deps.get_current_active_user now credentials)
    (λ current_user,
       match required_permission with
       | Some p =>
           _ ← lift (PermissionService.require_permission
                       (value (App.role current_user)) p);
           mret current_user
       | None => mret current_user
       end).

(** The same pipeline in [src/Backend.py], with the level check of an
    operation that requires [required_role]. *)
Definition backend_auth_gate {cfg : Settings}
    (now : Z) (credentials : jwt.bearer) (required_role : option UserRole)
  : M (gmap string Backend.UserRecord) Backend.UserRecord :=
  Depends (Backend.get_current_user now credentials)
    (λ current_user,
       match required_role with
       | Some r => _ ← lift (Backend.check_permission current_user r); mret current_user
       | None => mret current_user
       end).

(** A handler that touches no dictionary. *)
Definition store_free {S A B} (h : A → M S B) : Prop :=
  ∀ a s, store_of (h a s) = s ∧ trace_of (h a s) = [].

(** The payload of the token issued at [t0] for subject [s]. *)
Definition issued_payload {cfg : Settings} (t0 : Z) (s : string) : gmap string jwt.claim :=
  <["exp" := jwt.ClaimInt (t0 + timedelta_minutes ACCESS_TOKEN_EXPIRE_MINUTES)]>
    {["sub" := jwt.ClaimStr s]}.

(** The error of a failed [login] in [src/Backend.py]. *)
Definition backend_invalid_credentials : exception :=
  HTTPException HTTP_401_UNAUTHORIZED "Incorrect email or password".

(** The record [register] of [src/Backend.py] stores for [user_data] when
    the table holds [n] records. *)
Definition backend_new_user {crypt : CryptContext} (now : Z) (salt : string)
    (user_data : Backend.UserCreate) (n : nat) : Backend.UserRecord :=
  Backend.mkUserRecord (n + 1) (Backend.uc_email user_data) (Backend.uc_full_name user_data)
    (Backend.uc_role user_data)
    (Backend.get_password_hash salt (Backend.uc_password user_data)) true now.

(** The record [create_user] of the modular application stores. *)
Definition app_new_user {crypt : CryptContext} (now : Z) (salt : string)
    (user_data : App.UserCreate) (n : nat) : App.UserRecord :=
  App.mkUserRecord (n + 1) (App.uc_email user_data)
    (App.auth_service.get_password_hash salt (App.uc_password user_data))
    (App.uc_full_name user_data) (App.uc_role user_data) true now None.

(** ** Concrete instances used to run the definitions *)
Module Fixtures.

(** A hashing context to run examples with: the digest is the plaintext
    itself, whatever the salt. *)
Definition crypt : CryptContext := {|
  pwd_hash salt plain := plain;
  pwd_verify plain digest := bool_decide (plain = digest)
|}.

(** A provider whose dashboards are lists of metric names. *)
Definition analytics : AnalyticsProvider := {|
  DashboardData := list string;
  generate_sample_data := ["Total Revenue"; "Active Users"];
  extend_detailed_metrics d := d ++ ["Churn Rate"];
  get_dashboard_data_for r := ["Total Revenue"; r]
|}.

Definition viewer_record : Backend.UserRecord :=
  Backend.mkUserRecord 4 "viewer@example.com" "Viewer User" VIEWER "secret" true 0.

Definition disabled_record : Backend.UserRecord :=
  Backend.mkUserRecord 5 "gone@example.com" "Former User" ANALYST "secret" false 0.

(** The seeded table of [src/Backend.py] with a viewer and a disabled
    analyst added. *)
Definition backend_db : gmap string Backend.UserRecord :=
  <["gone@example.com" := disabled_record]>
  (<["viewer@example.com" := viewer_record]> (Backend.fake_users_db 0)).

(** The demo table of the modular application with a disabled analyst
    added. *)
Definition app_db : gmap string App.UserRecord :=
  <["gone@example.com" :=
      App.mkUserRecord 5 "gone@example.com" "secret" "Former User" ANALYST false 0 None]>
  (@App.db_service.create_demo_users crypt 0 (λ _, "salt")).

(** The token [src/Backend.py] issues at time [t0] for [sub]. *)
Definition token_for (t0 : Z) (sub : string) : jwt.bearer :=
  @Backend.create_access_token Backend.settings t0 {["sub" := jwt.ClaimStr sub]}.

Definition report_request : Backend.ReportRequest :=
  Backend.mkReportRequest "sales" [("start", "2024-01-01"); ("end", "2024-01-03")] "json".

Definition app_report_request : App.ReportRequest :=
  App.mkReportRequest "sales" [("start", "2024-01-01"); ("end", "2024-01-03")] "json".

End Fixtures.

(** ** Sequences of requests and well-formed user tables *)

(** A handler that may read the dictionary but leaves it as it is. *)
Definition read_only {S A B} (h : A → M S B) : Prop :=
  ∀ a s, store_of (h a s) = s.

(** What the code relies on in [fake_users_db]: a record is stored under
    its own e-mail address, identifiers run from 1 to the number of
    records and are not shared, and every account is active. *)
Record backend_table_ok (db : gmap string Backend.UserRecord) : Prop := {
  backend_key_is_email :
    ∀ k u, db !! k = Some u → Backend.email u = k;
  backend_id_in_range :
    ∀ k u, db !! k = Some u → (1 ≤ Backend.user_id u ≤ size db)%nat;
  backend_id_unique :
    ∀ k1 k2 u1 u2, db !! k1 = Some u1 → db !! k2 = Some u2 →
                   Backend.user_id u1 = Backend.user_id u2 → k1 = k2;
  backend_all_active :
    ∀ k u, db !! k = Some u → Backend.is_active u = true
}.

(** The same for [DatabaseService.users_db]. *)
Record app_table_ok (db : gmap string App.UserRecord) : Prop := {
  app_key_is_email :
    ∀ k u, db !! k = Some u → App.email u = k;
  app_id_in_range :
    ∀ k u, db !! k = Some u → (1 ≤ App.user_id u ≤ size db)%nat;
  app_id_unique :
    ∀ k1 k2 u1 u2, db !! k1 = Some u1 → db !! k2 = Some u2 →
                   App.user_id u1 = App.user_id u2 → k1 = k2;
  app_all_active :
    ∀ k u, db !! k = Some u → App.is_active u = true
}.

(** The requests [src/Backend.py] serves, one constructor per route that
    reaches the user table. *)
Inductive backend_request : Type :=
| BRegister (salt : string) (user_data : Backend.UserCreate)
| BLogin (user_credentials : Backend.UserLogin)
| BMe (credentials : jwt.bearer)
| BDashboard (credentials : jwt.bearer)
| BDetailed (credentials : jwt.bearer)
| BExport (report_request : Backend.ReportRequest) (credentials : jwt.bearer)
| BUsers (credentials : jwt.bearer).

(** The table after serving one request at time [now]. *)
Definition backend_serve {crypt : CryptContext} {cfg : Settings}
    {analytics : AnalyticsProvider} (db : gmap string Backend.UserRecord)
    (timed : Z * backend_request) : gmap string Backend.UserRecord :=
  let now := timed.1 in
  match timed.2 with
  | BRegister salt user_data => store_of (Backend.register now salt user_data db)
  | BLogin c => store_of (Backend.login now c db)
  | BMe cred => store_of (Backend.get_current_user_info now cred db)
  | BDashboard cred => store_of (Backend.get_dashboard_data now cred db)
  | BDetailed cred => store_of (Backend.get_detailed_analytics now cred db)
  | BExport req cred => store_of (Backend.export_report now req cred db)
  | BUsers cred => store_of (Backend.get_users now cred db)
  end.

(** The table after serving the requests in order. *)
Definition backend_run {crypt : CryptContext} {cfg : Settings}
    {analytics : AnalyticsProvider} (requests : list (Z * backend_request))
    (db : gmap string Backend.UserRecord) : gmap string Backend.UserRecord :=
  foldl backend_serve db requests.

(** The requests the routers of the modular application serve. *)
Inductive app_request : Type :=
| ARegister (salt : string) (user_data : App.UserCreate)
| ALogin (credentials : App.UserLogin)
| AMe (credentials : jwt.bearer)
| ADashboard (credentials : jwt.bearer)
| ADetailed (credentials : jwt.bearer)
| AExport (report_request : App.ReportRequest) (credentials : jwt.bearer).

Definition app_serve {crypt : CryptContext} {cfg : Settings}
    {analytics : AnalyticsProvider} (db : gmap string App.UserRecord)
    (timed : Z * app_request) : gmap string App.UserRecord :=
  let now := timed.1 in
  match timed.2 with
  | ARegister salt user_data => store_of (App.auth.register_user now salt user_data db)
  | ALogin c => store_of (App.auth.login_user now c db)
  | AMe cred => store_of (App.auth.get_current_user_info now cred db)
  | ADashboard cred => store_of (App.endpoints.get_dashboard_data now cred db)
  | ADetailed cred => store_of (App.endpoints.get_detailed_analytics now cred db)
  | AExport req cred => store_of (App.endpoints.export_report now req cred db)
  end.

Definition app_run {crypt : CryptContext} {cfg : Settings}
    {analytics : AnalyticsProvider} (requests : list (Z * app_request))
    (db : gmap string App.UserRecord) : gmap string App.UserRecord :=
  foldl app_serve db requests.

(** ** The dashboard fixtures

    [app/schemas/analytics.py], [app/services/analytics_service.py] and
    [generate_sample_data] of [src/Backend.py]. *)

(** A Python float that the code only writes down and hands on, kept as
    the decimal literal [digits * 10^-scale]. *)
Record decimal : Type := Dec { digits : Z; scale : nat }.

(** [float(n)] for an integer [n]. *)
Definition float_of_int (n : Z) : decimal := Dec n 0.

(** [random.randint(a, b)]: the generator's next raw output [raw] mapped
    into the [b - a + 1] integers from [a] to [b]. *)
Definition randint (a b : Z) (raw : Z) : Z := a + raw `mod` (b - a + 1).

(** [MetricData]. *)
Record MetricData : Type := mkMetricData {
  metric_name : string;
  metric_value : decimal;
  metric_change : decimal;
  metric_change_type : string
}.

(** [ChartDataPoint]; [point_date] is the day number of the date that
    [strftime("%Y-%m-%d")] prints. *)
Record ChartDataPoint : Type := mkChartDataPoint {
  point_date : Z;
  point_value : decimal;
  point_category : option string
}.

(** [ChartData]. *)
Record ChartData : Type := mkChartData {
  chart_title : string;
  chart_type : string;
  chart_data : list ChartDataPoint
}.

(** [DashboardResponse], and [DashboardData] of [src/Backend.py]. *)
Record DashboardResponse : Type := mkDashboardResponse {
  metrics : list MetricData;
  charts : list ChartData
}.

(** The [regex] constraints of the schema: [change_type] is
    [increase] or [decrease], a chart's [type] is [line], [bar] or [pie]. *)
Definition change_type_valid (m : MetricData) : bool :=
  bool_decide (metric_change_type m ∈ ["increase"; "decrease"]).

Definition chart_type_valid (c : ChartData) : bool :=
  bool_decide (chart_type c ∈ ["line"; "bar"; "pie"]).

Definition DashboardResponse_valid (d : DashboardResponse) : bool :=
  forallb change_type_valid (metrics d) && forallb chart_type_valid (charts d).

(** A point whose value is a whole number between [lo] and [hi]. *)
Definition point_within (lo hi : Z) (p : ChartDataPoint) : bool :=
  match point_value p with
  | Dec v 0 => (lo <=? v) && (v <=? hi)
  | Dec _ (S _) => false
  end.

(** [class AnalyticsService].  [today] is the day number of
    [datetime.now()] and [rng] the sequence of raw outputs of the random
    generator, of which a function uses those from index [i0] on. *)
Module analytics_service.

Definition base_metrics : list MetricData :=
  [mkMetricData "Total Revenue" (Dec 125000 0) (Dec 125 1) "increase";
   mkMetricData "Active Users" (Dec 8439 0) (Dec (-21) 1) "decrease";
   mkMetricData "Conversion Rate" (Dec 342 2) (Dec 8 1) "increase"].

Definition advanced_metrics : list MetricData :=
  [mkMetricData "Customer Lifetime Value" (Dec 24567 2) (Dec 83 1) "increase";
   mkMetricData "Churn Rate" (Dec 52 1) (Dec (-11) 1) "decrease"].

(** [generate_metrics(user_role)]. *)
Definition generate_metrics (user_role : string) : list MetricData :=
  if bool_decide (user_role ∈ ["analyst"; "manager"; "admin"])
  then base_metrics ++ advanced_metrics
  else base_metrics.

(** [generate_revenue_chart()]. *)
Definition generate_revenue_chart (today : Z) (rng : nat → Z) (i0 : nat) : ChartData :=
  let base_date := today - 30 in
  let data_points :=
    (λ i : nat,
       let date := base_date + Z.of_nat i in
       let value := 4000 + randint (-500) 1000 (rng (i0 + i)%nat) in
       mkChartDataPoint date (float_of_int value) None) <$> seq 0 30 in
  mkChartData "Daily Revenue" "line" data_points.

(** [generate_category_chart()]. *)
Definition generate_category_chart (today : Z) (rng : nat → Z) (i0 : nat) : ChartData :=
  let categories := ["Electronics"; "Clothing"; "Books"; "Home & Garden"; "Sports"] in
  let data_points :=
    imap (λ (j : nat) (category : string),
            let value := randint 1000 5000 (rng (i0 + j)%nat) in
            mkChartDataPoint today (float_of_int value) (Some category)) categories in
  mkChartData "Sales by Category" "bar" data_points.

(** [generate_demographics_chart()]. *)
Definition generate_demographics_chart (today : Z) (rng : nat → Z) (i0 : nat)
  : ChartData :=
  let demographics := ["18-24"; "25-34"; "35-44"; "45-54"; "55+"] in
  let data_points :=
    imap (λ (j : nat) (demo : string),
            let value := randint 500 2000 (rng (i0 + j)%nat) in
            mkChartDataPoint today (float_of_int value) (Some demo)) demographics in
  mkChartData "User Demographics" "pie" data_points.

(** [get_dashboard_data(user_role)]: the three generators run in this
    order, drawing 30, 5 and 5 random numbers. *)
Definition get_dashboard_data (user_role : string) (today : Z) (rng : nat → Z)
  : DashboardResponse :=
  let metrics := generate_metrics user_role in
  let charts := [generate_revenue_chart today rng 0;
                 generate_category_chart today rng 30;
                 generate_demographics_chart today rng 35] in
  mkDashboardResponse metrics charts.

End analytics_service.

(** [generate_sample_data()] of [src/Backend.py] and the metrics
    [get_detailed_analytics] adds. *)
Module sample_data.

Definition sample_metrics : list MetricData :=
  [mkMetricData "Total Revenue" (Dec 125000 0) (Dec 125 1) "increase";
   mkMetricData "Active Users" (Dec 8439 0) (Dec (-21) 1) "decrease";
   mkMetricData "Conversion Rate" (Dec 342 2) (Dec 8 1) "increase";
   mkMetricData "Avg. Order Value" (Dec 8932 2) (Dec 52 1) "increase"].

Definition detailed_metrics : list MetricData :=
  [mkMetricData "Customer Lifetime Value" (Dec 24567 2) (Dec 83 1) "increase";
   mkMetricData "Churn Rate" (Dec 52 1) (Dec (-11) 1) "decrease";
   mkMetricData "Cost Per Acquisition" (Dec 2345 2) (Dec 28 1) "increase"].

(** [generate_sample_data()]: the same three charts, written out in the
    function body. *)
Definition generate (today : Z) (rng : nat → Z) : DashboardResponse :=
  let revenue_data :=
    (λ i : nat,
       mkChartDataPoint (today - 30 + Z.of_nat i)
         (float_of_int (4000 + randint (-500) 1000 (rng i))) None) <$> seq 0 30 in
  let category_data :=
    imap (λ (j : nat) (category : string),
            mkChartDataPoint today (float_of_int (randint 1000 5000 (rng (30 + j)%nat)))
              (Some category))
         ["Electronics"; "Clothing"; "Books"; "Home & Garden"; "Sports"] in
  let demo_data :=
    imap (λ (j : nat) (demo : string),
            mkChartDataPoint today (float_of_int (randint 500 2000 (rng (35 + j)%nat)))
              (Some demo))
         ["18-24"; "25-34"; "35-44"; "45-54"; "55+"] in
  mkDashboardResponse sample_metrics
    [mkChartData "Daily Revenue" "line" revenue_data;
     mkChartData "Sales by Category" "bar" category_data;
     mkChartData "User Demographics" "pie" demo_data].

(** [detailed_data.metrics.extend(detailed_metrics)]. *)
Definition extend (detailed_data : DashboardResponse) : DashboardResponse :=
  mkDashboardResponse (metrics detailed_data ++ detailed_metrics) (charts detailed_data).

End sample_data.

(** The fixtures of the source as a provider, for one request served on
    day [today] with the random outputs [rng]. *)
Definition source_analytics (today : Z) (rng : nat → Z) : AnalyticsProvider := {|
  DashboardData := DashboardResponse;
  generate_sample_data := sample_data.generate today rng;
  extend_detailed_metrics := sample_data.extend;
  get_dashboard_data_for user_role := analytics_service.get_dashboard_data user_role today rng
|}.

(** * Properties *)

(** Case analysis on the innermost scrutinee of the goal, repeated. *)
Ltac no_inner_match x :=
  lazymatch x with
  | context [match _ with _ => _ end] => fail
  | _ => idtac
  end.

Ltac run_gate :=
  repeat (first
    [ progress (cbn [result_of store_of trace_of fst snd app] in *)
    | match goal with
      | |- context [match ?x with _ => _ end] => no_inner_match x; destruct x eqn:?
      end ]).

(** ** The permission table *)

Lemma permissions_of_unknown (s : string) :
  (∀ r : UserRole, s ≠ value r) → PermissionService.permissions_of s = [].
Proof.
  intros Hs. unfold PermissionService.permissions_of, PermissionService.ROLE_PERMISSIONS.
  rewrite !lookup_insert_ne by (apply not_eq_sym, Hs).
  by rewrite lookup_empty.
Qed.

(** C1.  [permissions_of] returns, for each of the four roles, exactly the
    list of the fixed table; for every other key it returns the empty list,
    without raising; and [check_permission r p] holds exactly when [p] is a
    member of [permissions_of r]. *)
Theorem permissions_of_table :
  PermissionService.permissions_of (value VIEWER) = ["dashboard:read"]
  ∧ PermissionService.permissions_of (value ANALYST) = ["dashboard:read"; "analytics:read"]
  ∧ PermissionService.permissions_of (value MANAGER)
    = ["dashboard:read"; "analytics:read"; "reports:export"]
  ∧ PermissionService.permissions_of (value ADMIN)
    = ["dashboard:read"; "analytics:read"; "reports:export"; "users:manage"]
  ∧ (∀ s : string, (∀ r : UserRole, s ≠ value r) →
       PermissionService.permissions_of s = [])
  ∧ (∀ s p : string,
       PermissionService.check_permission s p = true
       ↔ p ∈ PermissionService.permissions_of s).
Proof.
  repeat split; try (vm_compute; reflexivity).
  - apply permissions_of_unknown.
  - unfold PermissionService.check_permission. apply bool_decide_eq_true_1.
  - unfold PermissionService.check_permission. apply bool_decide_eq_true_2.
Qed.

(** ** The two enforcement models *)

Lemma check_permission_level (u : Backend.UserRecord) (required : UserRole) :
  is_ok (Backend.check_permission u required)
  = bool_decide (Backend.level required ≤ Backend.level (Backend.role u)).
Proof.
  unfold Backend.check_permission.
  destruct (Z.ltb_spec (Backend.level (Backend.role u)) (Backend.level required));
    simpl; symmetry; [apply bool_decide_eq_false_2 | apply bool_decide_eq_true_2]; lia.
Qed.

Lemma require_permission_check (r p : string) :
  is_ok (PermissionService.require_permission r p)
  = PermissionService.check_permission r p.
Proof.
  unfold PermissionService.require_permission.
  by destruct (PermissionService.check_permission r p).
Qed.

(** Whether a handler of [src/Backend.py] runs is decided by its level
    check alone. *)
Lemma backend_bodies_gate (analytics : AnalyticsProvider) (u : Backend.UserRecord)
    (db : gmap string Backend.UserRecord) (now : Z) (req : Backend.ReportRequest) :
  is_ok (result_of (Backend.get_dashboard_data_body u db)) = true
  ∧ is_ok (result_of (Backend.get_detailed_analytics_body u db))
    = is_ok (Backend.check_permission u ANALYST)
  ∧ is_ok (result_of (Backend.export_report_body now req u db))
    = is_ok (Backend.check_permission u MANAGER)
  ∧ is_ok (result_of (Backend.get_users_body u db))
    = is_ok (Backend.check_permission u ADMIN).
Proof.
  unfold Backend.get_dashboard_data_body, Backend.get_detailed_analytics_body,
    Backend.export_report_body, Backend.get_users_body, Backend.db_values,
    mbind, M_bind, bind, lift, store_access.
  repeat split; try reflexivity.
  all: destruct (Backend.check_permission _ _); try reflexivity.
  cbn. by destruct (bool_decide _).
Qed.

(** Whether a handler of the modular application runs is decided by its
    permission check alone. *)
Lemma app_bodies_gate (analytics : AnalyticsProvider) (u : App.UserRecord)
    (db : gmap string App.UserRecord) (req : App.ReportRequest) :
  is_ok (result_of (App.endpoints.get_dashboard_data_body u db))
  = PermissionService.check_permission (value (App.role u)) "dashboard:read"
  ∧ is_ok (result_of (App.endpoints.get_detailed_analytics_body u db))
    = PermissionService.check_permission (value (App.role u)) "analytics:read"
  ∧ is_ok (result_of (App.endpoints.export_report_body req u db))
    = PermissionService.check_permission (value (App.role u)) "reports:export".
Proof.
  unfold App.endpoints.get_dashboard_data_body, App.endpoints.get_detailed_analytics_body,
    App.endpoints.export_report_body, mbind, M_bind, bind, lift.
  rewrite <- !require_permission_check.
  repeat split; by destruct (PermissionService.require_permission _ _).
Qed.

(** C10.  On the four roles the numeric levels of [src/Backend.py] and the
    permission table of the modular application draw the same lines: level
    at least analyst is having ["analytics:read"], at least manager is
    having ["reports:export"], at least admin is having ["users:manage"],
    and every role is at least viewer and has ["dashboard:read"].  Hence,
    for two users of the same role, each protected handler of
    [src/Backend.py] runs exactly when the handler of the modular
    application for the same operation runs (the dashboard, which
    [src/Backend.py] leaves unchecked, the detailed analytics and the
    report export), and the user listing of [src/Backend.py] runs exactly
    for the roles that hold ["users:manage"]. *)
Theorem rank_agrees_with_permission_table (analytics : AnalyticsProvider) (r : UserRole) :
  (Backend.level r >= Backend.level ANALYST
   ↔ PermissionService.check_permission (value r) "analytics:read" = true)
  ∧ (Backend.level r >= Backend.level MANAGER
     ↔ PermissionService.check_permission (value r) "reports:export" = true)
  ∧ (Backend.level r >= Backend.level ADMIN
     ↔ PermissionService.check_permission (value r) "users:manage" = true)
  ∧ (Backend.level r >= Backend.level VIEWER
     ∧ PermissionService.check_permission (value r) "dashboard:read" = true)
  ∧ (∀ (bu : Backend.UserRecord) (au : App.UserRecord)
       (bdb : gmap string Backend.UserRecord) (adb : gmap string App.UserRecord)
       (now : Z) (breq : Backend.ReportRequest) (areq : App.ReportRequest),
       Backend.role bu = r → App.role au = r →
       is_ok (result_of (Backend.get_dashboard_data_body bu bdb))
       = is_ok (result_of (App.endpoints.get_dashboard_data_body au adb))
       ∧ is_ok (result_of (Backend.get_detailed_analytics_body bu bdb))
         = is_ok (result_of (App.endpoints.get_detailed_analytics_body au adb))
       ∧ is_ok (result_of (Backend.export_report_body now breq bu bdb))
         = is_ok (result_of (App.endpoints.export_report_body areq au adb))
       ∧ is_ok (result_of (Backend.get_users_body bu bdb))
         = PermissionService.check_permission (value r) "users:manage").
Proof.
  split; [|split; [|split; [|split]]].
  1-3: split; intros Hr; destruct r; vm_compute in Hr |- *; congruence.
  - split; destruct r; vm_compute; congruence.
  - intros bu au bdb adb now breq areq Hb Ha.
    destruct (backend_bodies_gate analytics bu bdb now breq) as (-> & -> & -> & ->).
    destruct (app_bodies_gate analytics au adb areq) as (-> & -> & ->).
    rewrite !check_permission_level, Hb, Ha.
    destruct r; vm_compute; auto.
Qed.

(** The viewer of the fixtures against a manager of the modular
    application with the same checks, role by role. *)
Lemma rank_agrees_with_permission_table_witness :
  is_ok (result_of (@Backend.export_report_body 10 Fixtures.report_request
                      Fixtures.viewer_record Fixtures.backend_db))
  = is_ok (result_of (App.endpoints.export_report_body Fixtures.app_report_request
                        (App.mkUserRecord 4 "viewer@example.com" "secret" "Viewer User"
                           VIEWER true 0 None) Fixtures.app_db))
  ∧ is_ok (result_of (@Backend.export_report_body 10 Fixtures.report_request
                        Fixtures.viewer_record Fixtures.backend_db)) = false.
Proof.
  split; [|vm_compute; reflexivity].
  eapply (rank_agrees_with_permission_table Fixtures.analytics VIEWER); reflexivity.
Defined.

(** ** Permission enforcement on the report export *)

Lemma Depends_result {S A B} (dep : M S A) (h : A → M S B) (s : S) (a : A) :
  result_of (dep s) = Ok a →
  result_of (Depends dep h s) = result_of (h a (store_of (dep s))).
Proof.
  unfold Depends, bind, result_of, store_of.
  destruct (dep s) as [[o s'] t]; simpl. intros ->.
  by destruct (h a s') as [[r s''] t'].
Qed.

(** C2.  When the request is authenticated as a user whose role is viewer,
    the report export raises 403 Forbidden at its permission check, before
    any report is built; when the role is manager the check passes and the
    handler returns its report.  This holds for [export_report] of
    [src/Backend.py] and for [export_report] of the modular application. *)
Theorem export_report_gate (cfg : Settings) (now : Z) (credentials : jwt.bearer) :
  (∀ (req : Backend.ReportRequest) (db : gmap string Backend.UserRecord)
     (u : Backend.UserRecord),
     result_of (Backend.get_current_user now credentials db) = Ok u →
     (Backend.role u = VIEWER →
        result_of (Backend.export_report now req credentials db)
        = Raise (HTTPException HTTP_403_FORBIDDEN "Insufficient permissions"))
     ∧ (Backend.role u = MANAGER →
        ∃ report, result_of (Backend.export_report now req credentials db) = Ok report))
  ∧ (∀ (req : App.ReportRequest) (db : gmap string App.UserRecord) (u : App.UserRecord),
       result_of (App.deps.get_current_active_user now credentials db) = Ok u →
       (App.role u = VIEWER →
          result_of (App.endpoints.export_report now req credentials db)
          = Raise (HTTPException HTTP_403_FORBIDDEN
                     "Insufficient permissions. Required: reports:export"))
       ∧ (App.role u = MANAGER →
          ∃ report,
            result_of (App.endpoints.export_report now req credentials db) = Ok report)).
Proof.
  split; intros req db u Hu; split; intros Hr.
  - unfold Backend.export_report. rewrite (Depends_result _ _ _ _ Hu).
    unfold Backend.export_report_body, Backend.check_permission. rewrite Hr.
    reflexivity.
  - unfold Backend.export_report. rewrite (Depends_result _ _ _ _ Hu).
    unfold Backend.export_report_body, Backend.check_permission. rewrite Hr.
    cbn. destruct (bool_decide _); eexists; reflexivity.
  - unfold App.endpoints.export_report. rewrite (Depends_result _ _ _ _ Hu).
    unfold App.endpoints.export_report_body. rewrite Hr. reflexivity.
  - unfold App.endpoints.export_report. rewrite (Depends_result _ _ _ _ Hu).
    unfold App.endpoints.export_report_body. rewrite Hr. eexists; reflexivity.
Qed.

(** A viewer and a manager, each with a token issued ten seconds before
    the request, in both applications. *)
Lemma export_report_gate_witness :
  (result_of (@Backend.export_report Backend.settings 10 Fixtures.report_request
                (Fixtures.token_for 0 "viewer@example.com") Fixtures.backend_db)
   = Raise (HTTPException HTTP_403_FORBIDDEN "Insufficient permissions")
   ∧ ∃ report,
       result_of (@Backend.export_report Backend.settings 10 Fixtures.report_request
                    (Fixtures.token_for 0 "manager@example.com") Fixtures.backend_db)
       = Ok report)
  ∧ (result_of (@App.endpoints.export_report Backend.settings 10 Fixtures.app_report_request
                  (Fixtures.token_for 0 "viewer@example.com") Fixtures.app_db)
     = Raise (HTTPException HTTP_403_FORBIDDEN
                "Insufficient permissions. Required: reports:export")
     ∧ ∃ report,
         result_of (@App.endpoints.export_report Backend.settings 10
                      Fixtures.app_report_request
                      (Fixtures.token_for 0 "manager@example.com") Fixtures.app_db)
         = Ok report).
Proof.
  pose proof (export_report_gate Backend.settings 10
                (Fixtures.token_for 0 "viewer@example.com")) as [Hbv Hav].
  pose proof (export_report_gate Backend.settings 10
                (Fixtures.token_for 0 "manager@example.com")) as [Hbm Ham].
  split; split.
  - eapply Hbv; vm_compute; reflexivity.
  - eapply Hbm; vm_compute; reflexivity.
  - eapply Hav; vm_compute; reflexivity.
  - eapply Ham; vm_compute; reflexivity.
Defined.

(** ** The gate writes nothing *)

Lemma Depends_store_free {S A B} (dep : M S A) (h : A → M S B) (s : S) :
  store_of (dep s) = s → store_free h →
  store_of (Depends dep h s) = s ∧ trace_of (Depends dep h s) = trace_of (dep s).
Proof.
  unfold store_free, Depends, bind, store_of, trace_of.
  intros Hs Hh. destruct (dep s) as [[o s'] t]; simpl in *; subst s'.
  destruct o as [a|e]; [|done].
  specialize (Hh a s). destruct (h a s) as [[r s''] t']; simpl in *.
  destruct Hh as [-> ->]. by rewrite app_nil_r.
Qed.

Lemma app_get_current_user_frame (cfg : Settings)
    (now : Z) (credentials : jwt.bearer) (db : gmap string App.UserRecord) :
  store_of (App.deps.get_current_user now credentials db) = db
  ∧ (trace_of (App.deps.get_current_user now credentials db) = []
     ∨ trace_of (App.deps.get_current_user now credentials db) = [OpGet]).
Proof.
  unfold App.deps.get_current_user, App.db_service.get_user_by_email,
    mbind, M_bind, mret, M_ret, bind, lift, raise, pure, store_access.
  run_gate; simplify_eq; auto.
Qed.

Lemma backend_get_current_user_frame (cfg : Settings)
    (now : Z) (credentials : jwt.bearer) (db : gmap string Backend.UserRecord) :
  store_of (Backend.get_current_user now credentials db) = db
  ∧ (trace_of (Backend.get_current_user now credentials db) = []
     ∨ trace_of (Backend.get_current_user now credentials db) = [OpGet]).
Proof.
  unfold Backend.get_current_user, Backend.db_get, try_except,
    mbind, M_bind, mret, M_ret, bind, lift, raise, pure, store_access.
  run_gate; simplify_eq; auto.
Qed.

(** C9.  For every credential, clock value, store and required permission
    (or none), the gate leaves the user table exactly as it found it,
    whether it returns the user or raises; and the dictionary operations
    it performs are either none at all (the token was refused) or the
    single [get] that resolves the user. *)
Theorem auth_gate_frame (cfg : Settings) (now : Z) (credentials : jwt.bearer) :
  (∀ (required_permission : option string) (db : gmap string App.UserRecord),
     store_of (app_auth_gate now credentials required_permission db) = db
     ∧ (trace_of (app_auth_gate now credentials required_permission db) = []
        ∨ trace_of (app_auth_gate now credentials required_permission db) = [OpGet]))
  ∧ (∀ (required_role : option UserRole) (db : gmap string Backend.UserRecord),
       store_of (backend_auth_gate now credentials required_role db) = db
       ∧ (trace_of (backend_auth_gate now credentials required_role db) = []
          ∨ trace_of (backend_auth_gate now credentials required_role db) = [OpGet])).
Proof.
  split.
  - intros p db. unfold app_auth_gate, App.deps.get_current_active_user.
    destruct (app_get_current_user_frame cfg now credentials db) as [Hs Ht].
    assert (store_free App.deps.get_current_active_user_body) as Hbody.
    { intros u s. unfold App.deps.get_current_active_user_body.
      by destruct (negb (App.is_active u)). }
    destruct (Depends_store_free _ _ db Hs Hbody) as [Hs' Ht'].
    assert (store_free (λ current_user : App.UserRecord,
              match p with
              | Some p0 =>
                  _ ← lift (PermissionService.require_permission
                              (value (App.role current_user)) p0);
                  (mret current_user : M (gmap string App.UserRecord) App.UserRecord)
              | None => mret current_user
              end)) as Hperm.
    { intros u s. destruct p as [p0|]; [|done].
      unfold mbind, M_bind, bind, lift.
      by destruct (PermissionService.require_permission _ _). }
    destruct (Depends_store_free _ _ db Hs' Hperm) as [Hs'' Ht''].
    split; [exact Hs''|]. rewrite Ht'', Ht'. exact Ht.
  - intros r db. unfold backend_auth_gate.
    destruct (backend_get_current_user_frame cfg now credentials db) as [Hs Ht].
    assert (store_free (λ current_user : Backend.UserRecord,
              match r with
              | Some r0 =>
                  _ ← lift (Backend.check_permission current_user r0);
                  (mret current_user : M (gmap string Backend.UserRecord) Backend.UserRecord)
              | None => mret current_user
              end)) as Hperm.
    { intros u s. destruct r as [r0|]; [|done].
      unfold mbind, M_bind, bind, lift.
      by destruct (Backend.check_permission _ _). }
    destruct (Depends_store_free _ _ db Hs Hperm) as [Hs' Ht'].
    split; [exact Hs'|]. rewrite Ht'. exact Ht.
Qed.

(** ** Tokens: expiry and round trip *)

Lemma issued_payload_sub (cfg : Settings) (t0 : Z) (s : string) :
  issued_payload t0 s !! "sub" = Some (jwt.ClaimStr s).
Proof.
  unfold issued_payload. rewrite lookup_insert_ne by done. apply lookup_singleton_eq.
Qed.

Lemma decode_issued (cfg : Settings) (s : string) (t0 t : Z) :
  jwt.decode t (Backend.create_access_token t0 {["sub" := jwt.ClaimStr s]})
    SECRET_KEY [ALGORITHM]
  = if t0 + timedelta_minutes ACCESS_TOKEN_EXPIRE_MINUTES <? t
    then Raise (JWTError ExpiredSignatureError)
    else Ok (issued_payload t0 s).
Proof.
  unfold Backend.create_access_token, jwt.encode, jwt.decode.
  rewrite bool_decide_eq_true_2 by (apply list_elem_of_singleton; reflexivity).
  rewrite bool_decide_eq_true_2 by reflexivity. cbn [negb].
  fold (issued_payload t0 s). unfold jwt.validate_claims.
  rewrite issued_payload_sub. unfold issued_payload at 1.
  rewrite lookup_insert_eq.
  by destruct (_ <? t).
Qed.

Lemma get_current_user_issued (cfg : Settings) (s : string) (t0 t : Z)
    (db : gmap string Backend.UserRecord) :
  Backend.get_current_user t
    (Backend.create_access_token t0 {["sub" := jwt.ClaimStr s]}) db
  = if t0 + timedelta_minutes ACCESS_TOKEN_EXPIRE_MINUTES <? t
    then (Raise Backend.credentials_exception, db, [])
    else (match db !! s with
          | Some u => Ok u
          | None => Raise Backend.credentials_exception
          end, db, [OpGet]).
Proof.
  unfold Backend.get_current_user, try_except, mbind, M_bind, bind, lift.
  rewrite decode_issued.
  destruct (_ <? t); [reflexivity|].
  rewrite issued_payload_sub.
  unfold Backend.db_get, store_access, bind. 
  by destruct (db !! s).
Qed.

(** C5.  A token issued at [t0] carries [exp = t0 + TTL] (30 minutes in
    the source).  At every time [t <= t0 + TTL] it decodes to its payload
    and the gate resolves its subject; at every time [t > t0 + TTL]
    decoding raises [ExpiredSignatureError], and nothing else, which the
    gate reports as 401 without consulting the user table. *)
Theorem token_expiry (cfg : Settings) (s : string) (t0 t : Z) :
  let token := Backend.create_access_token t0 {["sub" := jwt.ClaimStr s]} in
  let expires_at := t0 + timedelta_minutes ACCESS_TOKEN_EXPIRE_MINUTES in
  (token = jwt.encode (<["exp" := jwt.ClaimInt expires_at]> {["sub" := jwt.ClaimStr s]})
             SECRET_KEY ALGORITHM)
  ∧ (t <= expires_at →
       jwt.decode t token SECRET_KEY [ALGORITHM] = Ok (issued_payload t0 s)
       ∧ ∀ db : gmap string Backend.UserRecord,
           Backend.get_current_user t token db
           = (match db !! s with
              | Some u => Ok u
              | None => Raise Backend.credentials_exception
              end, db, [OpGet]))
  ∧ (t > expires_at →
       jwt.decode t token SECRET_KEY [ALGORITHM] = Raise (JWTError ExpiredSignatureError)
       ∧ ∀ db : gmap string Backend.UserRecord,
           Backend.get_current_user t token db
           = (Raise Backend.credentials_exception, db, [])).
Proof.
  intros token expires_at. subst token expires_at.
  split; [reflexivity|]. split; intros Ht.
  - split; [|intros db]; rewrite ?decode_issued, ?get_current_user_issued.
    all: destruct (Z.ltb_spec (t0 + timedelta_minutes ACCESS_TOKEN_EXPIRE_MINUTES) t);
      [lia|reflexivity].
  - split; [|intros db]; rewrite ?decode_issued, ?get_current_user_issued.
    all: destruct (Z.ltb_spec (t0 + timedelta_minutes ACCESS_TOKEN_EXPIRE_MINUTES) t);
      [reflexivity|lia].
Qed.

(** Under the configuration of the source a token issued at time 0 is
    good at second 1800 and expired at second 1801. *)
Lemma token_expiry_witness :
  is_ok (jwt.decode 1800 (Fixtures.token_for 0 "admin@example.com")
           (@SECRET_KEY Backend.settings) [@ALGORITHM Backend.settings]) = true
  ∧ jwt.decode 1801 (Fixtures.token_for 0 "admin@example.com")
      (@SECRET_KEY Backend.settings) [@ALGORITHM Backend.settings]
    = Raise (JWTError ExpiredSignatureError).
Proof.
  destruct (token_expiry Backend.settings "admin@example.com" 0 1800)
    as (_ & Hgood & _).
  destruct (token_expiry Backend.settings "admin@example.com" 0 1801)
    as (_ & _ & Hlate).
  split.
  - unfold Fixtures.token_for. rewrite (proj1 (Hgood ltac:(vm_compute; congruence))).
    reflexivity.
  - apply Hlate. vm_compute. reflexivity.
Defined.

(** C6.  Verifying a token within its lifetime returns the subject it was
    issued for: decoding succeeds and the payload's [sub] is [s]. *)
Theorem token_round_trip (cfg : Settings) (s : string) (t0 t : Z) :
  t <= t0 + timedelta_minutes ACCESS_TOKEN_EXPIRE_MINUTES →
  ∃ payload : gmap string jwt.claim,
    jwt.decode t (Backend.create_access_token t0 {["sub" := jwt.ClaimStr s]})
      SECRET_KEY [ALGORITHM] = Ok payload
    ∧ payload !! "sub" = Some (jwt.ClaimStr s).
Proof.
  intros Ht. exists (issued_payload t0 s). rewrite decode_issued.
  split; [|apply issued_payload_sub].
  destruct (Z.ltb_spec (t0 + timedelta_minutes ACCESS_TOKEN_EXPIRE_MINUTES) t);
    [lia|reflexivity].
Qed.

(** Immediately after issuance, under the configuration of the source. *)
Lemma token_round_trip_witness :
  ∃ payload : gmap string jwt.claim,
    jwt.decode 1000 (Fixtures.token_for 1000 "admin@example.com")
      (@SECRET_KEY Backend.settings) [@ALGORITHM Backend.settings] = Ok payload
    ∧ payload !! "sub" = Some (jwt.ClaimStr "admin@example.com").
Proof.
  apply (token_round_trip Backend.settings "admin@example.com" 1000 1000).
  vm_compute. congruence.
Defined.

(** ** Login *)

(** What [login] of [src/Backend.py] does, by cases on the table. *)
Lemma backend_login_cases (crypt : CryptContext) (cfg : Settings) (now : Z)
    (c : Backend.UserLogin) (db : gmap string Backend.UserRecord) :
  Backend.login now c db
  = match db !! Backend.ul_email c with
    | None => (Raise backend_invalid_credentials, db, [OpGet])
    | Some u =>
        if Backend.verify_password (Backend.ul_password c) (Backend.hashed_password u)
        then (Ok (Backend.mkToken
                    (Backend.create_access_token now
                       {["sub" := jwt.ClaimStr (Backend.ul_email c)]})
                    "bearer" (Backend.User_of u)), db, [OpGet])
        else (Raise backend_invalid_credentials, db, [OpGet])
    end.
Proof.
  unfold Backend.login, Backend.authenticate_user, Backend.db_get,
    mbind, M_bind, bind, store_access.
  destruct (db !! Backend.ul_email c) as [u|]; [|reflexivity].
  by destruct (Backend.verify_password _ _).
Qed.

(** What [login_user] of the modular application does, by cases. *)
Lemma app_login_cases (crypt : CryptContext) (cfg : Settings) (now : Z)
    (c : App.UserLogin) (db : gmap string App.UserRecord) :
  App.auth.login_user now c db
  = match db !! App.ul_email c with
    | None => (Raise App.auth.invalid_credentials_exception, db, [OpGet])
    | Some u =>
        if App.auth_service.verify_password (App.ul_password c) (App.hashed_password u)
        then
          if App.is_active u
          then (Ok (App.mkToken
                      (App.auth_service.create_access_token now
                         {["sub" := jwt.ClaimStr (App.email u)]})
                      "bearer" (App.UserResponse_of (App.with_last_login now u))),
                alter (App.with_last_login now) (App.ul_email c) db,
                [OpGet; OpContains; OpSetField])
          else (Raise App.auth.inactive_account_exception, db, [OpGet])
        else (Raise App.auth.invalid_credentials_exception, db, [OpGet])
    end.
Proof.
  unfold App.auth.login_user, App.db_service.get_user_by_email,
    App.db_service.update_last_login, mbind, M_bind, bind, store_access.
  destruct (db !! App.ul_email c) as [u|] eqn:Hu; [|reflexivity].
  destruct (App.auth_service.verify_password _ _); [|reflexivity].
  destruct (App.is_active u); [|reflexivity].
  cbn. rewrite Hu. rewrite bool_decide_eq_true_2 by eauto. reflexivity.
Qed.

(** C7.  A login for an e-mail address with no record and a login whose
    password does not verify against the record raise one and the same
    exception (401, with one fixed detail), perform the same single
    dictionary read and leave the table unchanged: the caller cannot tell
    the two causes apart.  This holds for [login] of [src/Backend.py] and
    for [login_user] of the modular application. *)
Theorem login_failure_uniform (crypt : CryptContext) (cfg : Settings) (now : Z) :
  (∀ (c : Backend.UserLogin) (db : gmap string Backend.UserRecord),
     (db !! Backend.ul_email c = None
      ∨ ∃ u, db !! Backend.ul_email c = Some u
             ∧ Backend.verify_password (Backend.ul_password c)
                 (Backend.hashed_password u) = false) →
     Backend.login now c db
     = (Raise (HTTPException HTTP_401_UNAUTHORIZED "Incorrect email or password"),
        db, [OpGet]))
  ∧ (∀ (c : App.UserLogin) (db : gmap string App.UserRecord),
       (db !! App.ul_email c = None
        ∨ ∃ u, db !! App.ul_email c = Some u
               ∧ App.auth_service.verify_password (App.ul_password c)
                   (App.hashed_password u) = false) →
       App.auth.login_user now c db
       = (Raise (HTTPException HTTP_401_UNAUTHORIZED "Invalid email or password"),
          db, [OpGet])).
Proof.
  split; intros c db Hc.
  - rewrite backend_login_cases.
    destruct Hc as [-> | (u & -> & ->)]; reflexivity.
  - rewrite app_login_cases.
    destruct Hc as [-> | (u & -> & ->)]; reflexivity.
Qed.

(** An unknown address and a wrong password, in both applications. *)
Lemma login_failure_uniform_witness :
  @Backend.login Fixtures.crypt Backend.settings 10
     (Backend.mkUserLogin "nobody@example.com" "secret") Fixtures.backend_db
  = @Backend.login Fixtures.crypt Backend.settings 10
     (Backend.mkUserLogin "viewer@example.com" "guess") Fixtures.backend_db
  ∧ @App.auth.login_user Fixtures.crypt Backend.settings 10
       (App.mkUserLogin "nobody@example.com" "secret") Fixtures.app_db
    = @App.auth.login_user Fixtures.crypt Backend.settings 10
       (App.mkUserLogin "viewer@example.com" "guess") Fixtures.app_db.
Proof.
  destruct (login_failure_uniform Fixtures.crypt Backend.settings 10) as [Hb Ha].
  split.
  - rewrite (Hb (Backend.mkUserLogin "nobody@example.com" "secret") Fixtures.backend_db)
      by (left; vm_compute; reflexivity).
    rewrite (Hb (Backend.mkUserLogin "viewer@example.com" "guess") Fixtures.backend_db)
      by (right; exists Fixtures.viewer_record; split; vm_compute; reflexivity).
    reflexivity.
  - rewrite (Ha (App.mkUserLogin "nobody@example.com" "secret") Fixtures.app_db)
      by (left; vm_compute; reflexivity).
    rewrite (Ha (App.mkUserLogin "viewer@example.com" "guess") Fixtures.app_db)
      by (right; eexists; split; vm_compute; reflexivity).
    reflexivity.
Defined.

(** ** Registration *)

Lemma backend_register_cases (crypt : CryptContext) (cfg : Settings) (now : Z)
    (salt : string) (ud : Backend.UserCreate) (db : gmap string Backend.UserRecord) :
  Backend.register now salt ud db
  = match db !! Backend.uc_email ud with
    | Some _ =>
        (Raise (HTTPException HTTP_400_BAD_REQUEST "Email already registered"),
         db, [OpContains])
    | None =>
        let new_user := backend_new_user now salt ud (size db) in
        (Ok (Backend.mkToken
               (Backend.create_access_token now
                  {["sub" := jwt.ClaimStr (Backend.uc_email ud)]})
               "bearer" (Backend.User_of new_user)),
         <[Backend.uc_email ud := new_user]> db,
         [OpContains; OpLen; OpSetItem])
    end.
Proof.
  unfold Backend.register, Backend.db_contains, Backend.db_len, Backend.db_setitem,
    mbind, M_bind, bind, store_access.
  destruct (db !! Backend.uc_email ud) as [u|] eqn:Hu.
  - rewrite bool_decide_eq_true_2 by eauto. reflexivity.
  - rewrite bool_decide_eq_false_2 by (intros [? ?]; congruence). reflexivity.
Qed.

Lemma app_register_cases (crypt : CryptContext) (cfg : Settings) (now : Z)
    (salt : string) (ud : App.UserCreate) (db : gmap string App.UserRecord) :
  App.auth.register_user now salt ud db
  = if App.auth_service.validate_password_strength (App.uc_password ud)
    then match db !! App.uc_email ud with
         | Some _ =>
             (Raise (HTTPException HTTP_400_BAD_REQUEST "Email already registered"),
              db, [OpContains])
         | None =>
             let new_user := app_new_user now salt ud (size db) in
             (Ok (App.mkToken
                    (App.auth_service.create_access_token now
                       {["sub" := jwt.ClaimStr (App.uc_email ud)]})
                    "bearer" (App.UserResponse_of new_user)),
              <[App.uc_email ud := new_user]> db,
              [OpContains; OpLen; OpSetItem])
         end
    else (Raise App.auth.weak_password_exception, db, []).
Proof.
  unfold App.auth.register_user.
  destruct (App.auth_service.validate_password_strength _); [|reflexivity].
  unfold App.db_service.create_user, try_except, mbind, M_bind, bind, store_access.
  cbn [negb].
  destruct (db !! App.uc_email ud) as [u|] eqn:Hu.
  - rewrite bool_decide_eq_true_2 by eauto. reflexivity.
  - rewrite bool_decide_eq_false_2 by (intros [? ?]; congruence). reflexivity.
Qed.

(** C4, as the claim states it, fails on [src/Backend.py]: its [UserCreate]
    declares [password: str] without a length bound and its [register] has
    no strength check, so the password ["weak"], which does not meet the
    policy, is accepted, a record is stored and a token is returned. *)
Lemma register_weak_password_counterexample :
  let run := @Backend.register Fixtures.crypt Backend.settings 10 "salt"
               (Backend.UserCreate_init "new@example.com" "weak" "New User" None)
               Fixtures.backend_db in
  App.auth_service.validate_password_strength "weak" = false
  ∧ is_ok (result_of run) = true
  ∧ Backend.email <$> (store_of run !! "new@example.com") = Some "new@example.com"
  ∧ Fixtures.backend_db !! "new@example.com" = None.
Proof. vm_compute. repeat split; reflexivity. Qed.

(** C4, amended.  The request schema lets [register_user] of the modular
    application receive only a [UserCreate] whose password has 8 to 100
    characters (and whose full name has 1 to 255).  For every such
    [UserCreate] the handler raises the weak-password error (400) exactly
    when the password fails the policy, which under the schema's bound
    means that it lacks an upper-case letter, a lower-case letter or a
    digit; it then stores nothing, performs no dictionary operation and
    returns no token.  A [UserCreate] whose password is shorter than 8
    characters does not satisfy the schema, so the handler is not called
    for it.  ["Abcdef12"] passes the strength check. *)
Theorem register_user_weak_password (crypt : CryptContext) (cfg : Settings)
    (now : Z) (salt : string) (user_data : App.UserCreate)
    (db : gmap string App.UserRecord) :
  (App.UserCreate_fields_valid user_data = true →
   (App.auth_service.validate_password_strength (App.uc_password user_data) = false
    ↔ result_of (App.auth.register_user now salt user_data db)
      = Raise (HTTPException HTTP_400_BAD_REQUEST
          "Password must be at least 8 characters with uppercase, lowercase, and number"))
   ∧ (App.auth_service.validate_password_strength (App.uc_password user_data) = false →
      App.auth.register_user now salt user_data db
      = (Raise App.auth.weak_password_exception, db, []))
   ∧ App.auth_service.validate_password_strength (App.uc_password user_data)
     = (let cs := list_ascii_of_string (App.uc_password user_data) in
        existsb App.auth_service.is_upper cs
        && existsb App.auth_service.is_lower cs
        && existsb App.auth_service.is_digit cs))
  ∧ ((String.length (App.uc_password user_data) < 8)%nat →
     App.UserCreate_fields_valid user_data = false)
  ∧ App.auth_service.validate_password_strength "Abcdef12" = true.
Proof.
  split; [|split].
  - intros Hvalid. rewrite app_register_cases.
    split; [|split].
    + destruct (App.auth_service.validate_password_strength _).
      * split; [discriminate|].
        destruct (db !! App.uc_email user_data); cbn; intros [=].
      * split; reflexivity.
    + intros ->. reflexivity.
    + unfold App.UserCreate_fields_valid in Hvalid. cbv zeta in Hvalid.
      apply andb_prop in Hvalid as [Hvalid _].
      apply andb_prop in Hvalid as [_ Hlen].
      unfold App.auth_service.validate_password_strength. cbv zeta.
      rewrite Hlen. reflexivity.
  - intros Hshort. unfold App.UserCreate_fields_valid. cbv zeta.
    apply Nat.leb_gt in Hshort. rewrite Hshort.
    rewrite andb_false_r. reflexivity.
  - reflexivity.
Qed.

(** Two bodies the schema admits, on the demo table: one with a password
    that meets the policy, which is registered, and one with a password of
    nine characters without an upper-case letter, which is refused. *)
Lemma register_user_weak_password_witness :
  App.UserCreate_fields_valid
    (App.UserCreate_init "new@example.com" "abcdefgh1" "New User" None) = true
  ∧ is_ok (result_of (@App.auth.register_user Fixtures.crypt Backend.settings 10 "salt"
             (App.UserCreate_init "new@example.com" "Abcdef12" "New User" None)
             Fixtures.app_db)) = true
  ∧ @App.auth.register_user Fixtures.crypt Backend.settings 10 "salt"
      (App.UserCreate_init "new@example.com" "abcdefgh1" "New User" None) Fixtures.app_db
    = (Raise App.auth.weak_password_exception, Fixtures.app_db, []).
Proof.
  split; [reflexivity|].
  split; [vm_compute; reflexivity|].
  apply (register_user_weak_password Fixtures.crypt Backend.settings 10 "salt"
           (App.UserCreate_init "new@example.com" "abcdefgh1" "New User" None)
           Fixtures.app_db).
  - reflexivity.
  - vm_compute. reflexivity.
Defined.

(** The request schema of the modular application bounds the password
    length from below by 8, so a body carrying ["weak"] is refused by the
    framework before [register_user] is called. *)
Remark weak_below_schema_bound :
  App.UserCreate_fields_valid
    (App.UserCreate_init "new@example.com" "weak" "New User" None) = false.
Proof. reflexivity. Qed.

(** C8.  A registration that goes through creates a user whose role is
    the one the request names, whichever of the four it is (the handlers
    take no credential of the caller and make no check on the role), and
    viewer when the request names none.  The role is both stored in the
    table and returned with the token.  This holds for [register] of
    [src/Backend.py] and for [register_user] of the modular application. *)
Theorem register_role (crypt : CryptContext) (cfg : Settings) (now : Z) (salt : string)
    (email password full_name : string) (role : option UserRole) :
  (∀ db : gmap string Backend.UserRecord,
     db !! email = None →
     ∃ token db',
       Backend.register now salt (Backend.UserCreate_init email password full_name role) db
       = (Ok token, db', [OpContains; OpLen; OpSetItem])
       ∧ Backend.User_role (Backend.user token) = default VIEWER role
       ∧ Backend.role <$> (db' !! email) = Some (default VIEWER role))
  ∧ (∀ db : gmap string App.UserRecord,
       db !! email = None →
       App.auth_service.validate_password_strength password = true →
       ∃ token db',
         App.auth.register_user now salt (App.UserCreate_init email password full_name role) db
         = (Ok token, db', [OpContains; OpLen; OpSetItem])
         ∧ App.ur_role (App.user token) = default VIEWER role
         ∧ App.role <$> (db' !! email) = Some (default VIEWER role)).
Proof.
  split.
  - intros db Hfree. rewrite backend_register_cases. cbn [Backend.UserCreate_init Backend.uc_email].
    rewrite Hfree. do 2 eexists. split; [reflexivity|]. split; [reflexivity|].
    rewrite lookup_insert_eq. reflexivity.
  - intros db Hfree Hstrong. rewrite app_register_cases.
    cbn [App.UserCreate_init App.uc_email App.uc_password].
    rewrite Hstrong, Hfree. do 2 eexists. split; [reflexivity|]. split; [reflexivity|].
    rewrite lookup_insert_eq. reflexivity.
Qed.

(** A caller that names [admin], and one that names no role. *)
Lemma register_role_witness :
  (∃ token db',
     @Backend.register Fixtures.crypt Backend.settings 10 "salt"
       (Backend.UserCreate_init "new@example.com" "Abcdef12" "New User" (Some ADMIN))
       Fixtures.backend_db
     = (Ok token, db', [OpContains; OpLen; OpSetItem])
     ∧ Backend.User_role (Backend.user token) = ADMIN
     ∧ Backend.role <$> (db' !! "new@example.com") = Some ADMIN)
  ∧ (∃ token db',
       @App.auth.register_user Fixtures.crypt Backend.settings 10 "salt"
         (App.UserCreate_init "new@example.com" "Abcdef12" "New User" None)
         Fixtures.app_db
       = (Ok token, db', [OpContains; OpLen; OpSetItem])
       ∧ App.ur_role (App.user token) = VIEWER
       ∧ App.role <$> (db' !! "new@example.com") = Some VIEWER).
Proof.
  split.
  - apply (register_role Fixtures.crypt Backend.settings 10 "salt"
             "new@example.com" "Abcdef12" "New User" (Some ADMIN)).
    vm_compute. reflexivity.
  - apply (register_role Fixtures.crypt Backend.settings 10 "salt"
             "new@example.com" "Abcdef12" "New User" None);
      vm_compute; reflexivity.
Defined.

(** ** Disabled accounts *)

(** C3, as the claim states it, fails.  In the modular application a
    valid token of a disabled user is refused by [get_current_user] with
    401 and the detail ["User not found or inactive"], the very error an
    unknown subject gets, so the 400 of the active check that follows is
    never raised.  In [src/Backend.py] the flag is never read: a disabled
    user logs in with the right password. *)
Lemma disabled_account_counterexample :
  let token := Fixtures.token_for 0 "gone@example.com" in
  let unknown := Fixtures.token_for 0 "nobody@example.com" in
  let me := @App.auth.get_current_user_info Backend.settings in
  App.is_active <$> (Fixtures.app_db !! "gone@example.com") = Some false
  ∧ is_ok (@App.auth_service.verify_token Backend.settings 10 token) = true
  ∧ result_of (me 10 token Fixtures.app_db)
    = Raise (HTTPException HTTP_401_UNAUTHORIZED "User not found or inactive")
  ∧ result_of (me 10 token Fixtures.app_db) = result_of (me 10 unknown Fixtures.app_db)
  ∧ result_of (me 10 token Fixtures.app_db)
    ≠ Raise (HTTPException HTTP_400_BAD_REQUEST "Inactive user")
  ∧ Backend.is_active <$> (Fixtures.backend_db !! "gone@example.com") = Some false
  ∧ is_ok (result_of (@Backend.login Fixtures.crypt Backend.settings 10
             (Backend.mkUserLogin "gone@example.com" "secret") Fixtures.backend_db)) = true.
Proof. vm_compute. repeat split; try reflexivity. discriminate. Qed.

(** C3, amended.  For every user record whose [is_active] flag is false:
    [login_user] of the modular application, given the right password,
    raises the disabled-account error (400, ["Inactive user account"]) and
    writes nothing; and every operation of the modular application behind
    the gate, presented with an otherwise valid token of that user, fails
    in [get_current_user] with 401 and the detail ["User not found or
    inactive"], the error an unknown subject gets, without running its
    handler and without writing.  [src/Backend.py] reads the flag nowhere:
    its [login] returns a token for the right password whatever the flag. *)
Theorem disabled_account (crypt : CryptContext) (cfg : Settings) (now : Z) :
  (∀ (c : App.UserLogin) (db : gmap string App.UserRecord) (u : App.UserRecord),
     db !! App.ul_email c = Some u →
     App.is_active u = false →
     App.auth_service.verify_password (App.ul_password c) (App.hashed_password u) = true →
     App.auth.login_user now c db
     = (Raise (HTTPException HTTP_400_BAD_REQUEST "Inactive user account"), db, [OpGet]))
  ∧ (∀ (B : Type) (handler : App.UserRecord → M (gmap string App.UserRecord) B)
       (credentials : jwt.bearer) (db : gmap string App.UserRecord)
       (payload : gmap string jwt.claim) (s : string) (u : App.UserRecord),
       App.auth_service.verify_token now credentials = Ok payload →
       payload !! "sub" = Some (jwt.ClaimStr s) →
       db !! s = Some u →
       App.is_active u = false →
       Depends (App.deps.get_current_active_user now credentials) handler db
       = (Raise (HTTPException HTTP_401_UNAUTHORIZED "User not found or inactive"),
          db, [OpGet]))
  ∧ (∀ (c : Backend.UserLogin) (db : gmap string Backend.UserRecord)
       (u : Backend.UserRecord),
       db !! Backend.ul_email c = Some u →
       Backend.verify_password (Backend.ul_password c) (Backend.hashed_password u) = true →
       ∃ token, Backend.login now c db = (Ok token, db, [OpGet])).
Proof.
  split; [|split].
  - intros c db u Hu Hact Hpw. rewrite app_login_cases, Hu, Hpw, Hact. reflexivity.
  - intros B handler credentials db payload s u Htok Hsub Hu Hact.
    unfold App.deps.get_current_active_user, App.deps.get_current_user,
      App.db_service.get_user_by_email, Depends, mbind, M_bind, bind, lift, store_access.
    rewrite Htok, Hsub, Hu, Hact. reflexivity.
  - intros c db u Hu Hpw. rewrite backend_login_cases, Hu, Hpw. eexists; reflexivity.
Qed.

(** The disabled analyst of the fixtures: login with the right password,
    and the export behind the gate. *)
Lemma disabled_account_witness :
  @App.auth.login_user Fixtures.crypt Backend.settings 10
    (App.mkUserLogin "gone@example.com" "secret") Fixtures.app_db
  = (Raise (HTTPException HTTP_400_BAD_REQUEST "Inactive user account"),
     Fixtures.app_db, [OpGet])
  ∧ @App.endpoints.export_report Backend.settings 10 Fixtures.app_report_request
      (Fixtures.token_for 0 "gone@example.com") Fixtures.app_db
    = (Raise (HTTPException HTTP_401_UNAUTHORIZED "User not found or inactive"),
       Fixtures.app_db, [OpGet]).
Proof.
  destruct (disabled_account Fixtures.crypt Backend.settings 10) as (Hlogin & Hgate & _).
  split.
  - eapply Hlogin; vm_compute; reflexivity.
  - unfold App.endpoints.export_report.
    eapply (Hgate _ _ _ _ _ "gone@example.com"); vm_compute; reflexivity.
Defined.

(** * Further properties of the code *)

(** ** The gate of [src/Backend.py] *)



Lemma decode_raises_JWTError (now : Z) (token : jwt.bearer) (key : string)
    (algorithms : list string) (e : exception) :
  jwt.decode now token key algorithms = Raise e → is_JWTError e = true.
Proof.
  unfold jwt.decode, jwt.validate_claims.
  destruct token as [alg k claims|raw]; [|by intros [= <-]].
  destruct (negb (bool_decide (alg ∈ algorithms))); [by intros [= <-]|].
  destruct (negb (bool_decide (k = key))); [by intros [= <-]|].
  destruct (claims !! "exp") as [[x|exp]|]; [by intros [= <-]| |].
  - destruct (exp <? now); [by intros [= <-]|].
    destruct (claims !! "sub") as [[s|n]|]; try discriminate. by intros [= <-].
  - destruct (claims !! "sub") as [[s|n]|]; try discriminate. by intros [= <-].
Qed.

(** What [get_current_user] of [src/Backend.py] does, by cases on the
    decoding of the token. *)
Lemma backend_get_current_user_cases (cfg : Settings) (now : Z)
    (credentials : jwt.bearer) (db : gmap string Backend.UserRecord) :
  Backend.get_current_user now credentials db
  = match jwt.decode now credentials SECRET_KEY [ALGORITHM] with
    | Raise _ => (Raise Backend.credentials_exception, db, [])
    | Ok payload =>
        match payload !! "sub" with
        | None => (Raise Backend.credentials_exception, db, [])
        | Some (jwt.ClaimStr s) =>
            (match db !! s with
             | Some u => Ok u
             | None => Raise Backend.credentials_exception
             end, db, [OpGet])
        | Some (jwt.ClaimInt _) => (Raise Backend.credentials_exception, db, [OpGet])
        end
    end.
Proof.
  unfold Backend.get_current_user, try_except, mbind, M_bind, bind, lift, raise,
    Backend.db_get, store_access.
  destruct (jwt.decode now credentials SECRET_KEY [ALGORITHM]) as [payload|e] eqn:Hd.
  - destruct (payload !! "sub") as [[s|n]|]; try reflexivity.
    by destruct (db !! s).
  - by rewrite (decode_raises_JWTError _ _ _ _ _ Hd).
Qed.

(** For every credential that is either no token signed with the
    configured key, or such a token whose claims are all strings or
    integers, and whatever the clock and the table, [get_current_user] of
    [src/Backend.py] either returns a user or raises the one exception 401
    "Could not validate credentials": no [JWTError] of the library escapes,
    and a bad signature, an expired token, a missing subject and an unknown
    user are reported alike.  Tokens carrying a claim of another JSON type
    (null, a list, an object) are no values of [jwt.claim] and lie outside
    this statement. *)
Theorem backend_get_current_user_single_error (cfg : Settings) (now : Z)
    (credentials : jwt.bearer) (db : gmap string Backend.UserRecord) :
  (∃ u, result_of (Backend.get_current_user now credentials db) = Ok u)
  ∨ result_of (Backend.get_current_user now credentials db)
    = Raise (HTTPException HTTP_401_UNAUTHORIZED "Could not validate credentials").
Proof.
  rewrite backend_get_current_user_cases.
  destruct (jwt.decode _ _ _ _) as [payload|e]; [|by right].
  destruct (payload !! "sub") as [[s|n]|]; try by right.
  destruct (db !! s) as [u|]; [left; by exists u|by right].
Qed.

(** A credential that is not a token signed with the configured key under
    the configured algorithm is refused with 401 before the user table is
    looked at. *)
Theorem backend_get_current_user_forged (cfg : Settings) (now : Z)
    (credentials : jwt.bearer) (db : gmap string Backend.UserRecord) :
  (∀ claims, credentials ≠ jwt.Signed ALGORITHM SECRET_KEY claims) →
  Backend.get_current_user now credentials db
  = (Raise Backend.credentials_exception, db, []).
Proof.
  intros Hforged. rewrite backend_get_current_user_cases.
  unfold jwt.decode.
  destruct credentials as [alg k claims|raw]; [|reflexivity].
  destruct (bool_decide (alg ∈ [ALGORITHM])) eqn:Halg; [|reflexivity].
  destruct (bool_decide (k = SECRET_KEY)) eqn:Hk; [|reflexivity].
  apply bool_decide_eq_true_1 in Halg, Hk. apply list_elem_of_singleton in Halg.
  subst. by destruct (Hforged claims).
Qed.

(** A token for the administrator signed with another key. *)
Lemma backend_get_current_user_forged_witness :
  @Backend.get_current_user Backend.settings 10
    (jwt.encode {["sub" := jwt.ClaimStr "admin@example.com"]} "guessed-key" "HS256")
    Fixtures.backend_db
  = (Raise Backend.credentials_exception, Fixtures.backend_db, []).
Proof.
  apply (backend_get_current_user_forged Backend.settings).
  intros claims. vm_compute. congruence.
Defined.

(** ** Invariants of the user tables *)

Lemma Depends_read_only {S A B} (dep : M S A) (h : A → M S B) (s : S) :
  store_of (dep s) = s → read_only h → store_of (Depends dep h s) = s.
Proof.
  unfold read_only, Depends, bind, store_of.
  intros Hs Hh. destruct (dep s) as [[o s'] t]; simpl in *; subst s'.
  destruct o as [a|e]; [|done].
  specialize (Hh a s). by destruct (h a s) as [[r s''] t'].
Qed.

Lemma backend_table_ok_insert (db : gmap string Backend.UserRecord) (k : string)
    (u : Backend.UserRecord) :
  backend_table_ok db → db !! k = None →
  Backend.email u = k → Backend.user_id u = (size db + 1)%nat →
  Backend.is_active u = true →
  backend_table_ok (<[k := u]> db).
Proof.
  intros [Hkey Hrange Huniq Hact] Hfree Hemail Hid Hactive.
  split.
  - intros k' u' [[<- <-]|[_ Hu']]%lookup_insert_Some; eauto.
  - intros k' u'. rewrite map_size_insert_None by done.
    intros [[<- <-]|[_ Hu']]%lookup_insert_Some; [lia|].
    specialize (Hrange _ _ Hu'). lia.
  - intros k1 k2 u1 u2 [[<- <-]|[_ Hu1]]%lookup_insert_Some
      [[<- <-]|[_ Hu2]]%lookup_insert_Some Hsame; eauto.
    + specialize (Hrange _ _ Hu2). lia.
    + specialize (Hrange _ _ Hu1). lia.
  - intros k' u' [[<- <-]|[_ Hu']]%lookup_insert_Some; eauto.
Qed.

Lemma app_table_ok_insert (db : gmap string App.UserRecord) (k : string)
    (u : App.UserRecord) :
  app_table_ok db → db !! k = None →
  App.email u = k → App.user_id u = (size db + 1)%nat →
  App.is_active u = true →
  app_table_ok (<[k := u]> db).
Proof.
  intros [Hkey Hrange Huniq Hact] Hfree Hemail Hid Hactive.
  split.
  - intros k' u' [[<- <-]|[_ Hu']]%lookup_insert_Some; eauto.
  - intros k' u'. rewrite map_size_insert_None by done.
    intros [[<- <-]|[_ Hu']]%lookup_insert_Some; [lia|].
    specialize (Hrange _ _ Hu'). lia.
  - intros k1 k2 u1 u2 [[<- <-]|[_ Hu1]]%lookup_insert_Some
      [[<- <-]|[_ Hu2]]%lookup_insert_Some Hsame; eauto.
    + specialize (Hrange _ _ Hu2). lia.
    + specialize (Hrange _ _ Hu1). lia.
  - intros k' u' [[<- <-]|[_ Hu']]%lookup_insert_Some; eauto.
Qed.

(** Rebinding one key of a stored record is an insertion over it. *)
Lemma alter_as_insert {A} (f : A → A) (k : string) (db : gmap string A) (u : A) :
  db !! k = Some u → alter f k db = <[k := f u]> db.
Proof.
  intros Hu. apply map_eq. intros j.
  destruct (decide (k = j)) as [<-|Hne].
  - by rewrite lookup_alter_eq, lookup_insert_eq, Hu.
  - by rewrite lookup_alter_ne, lookup_insert_ne.
Qed.

Lemma app_table_ok_last_login (db : gmap string App.UserRecord) (k : string) (now : Z) :
  app_table_ok db → app_table_ok (alter (App.with_last_login now) k db).
Proof.
  intros Hok. destruct (db !! k) as [u|] eqn:Hu.
  - rewrite (alter_as_insert _ _ _ _ Hu).
    destruct Hok as [Hkey Hrange Huniq Hact].
    assert (size (<[k := App.with_last_login now u]> db) = size db) as Hsize
      by (apply map_size_insert_Some; eauto).
    split.
    + intros k' u' [[<- <-]|[_ Hu']]%lookup_insert_Some; eauto. apply (Hkey _ _ Hu).
    + intros k' u'. rewrite Hsize.
      intros [[<- <-]|[_ Hu']]%lookup_insert_Some; eauto. apply (Hrange _ _ Hu).
    + intros k1 k2 u1 u2 [[<- <-]|[Hn1 Hu1]]%lookup_insert_Some
        [[<- <-]|[Hn2 Hu2]]%lookup_insert_Some Hsame; cbn in Hsame; eauto.
    + intros k' u' [[<- <-]|[_ Hu']]%lookup_insert_Some; eauto. apply (Hact _ _ Hu).
  - assert (alter (App.with_last_login now) k db = db) as ->; [|done].
    apply map_eq. intros j. destruct (decide (k = j)) as [<-|Hne].
    + by rewrite lookup_alter_eq, Hu.
    + by rewrite lookup_alter_ne.
Qed.

Lemma backend_fake_users_db_ok (t0 : Z) : backend_table_ok (Backend.fake_users_db t0).
Proof.
  unfold Backend.fake_users_db.
  repeat (apply backend_table_ok_insert; [| done | done | vm_compute; reflexivity | done ]).
  split; intros *; rewrite ?lookup_empty; done.
Qed.

Lemma app_create_demo_users_ok (crypt : CryptContext) (now : Z) (salt : nat → string) :
  app_table_ok (App.db_service.create_demo_users now salt).
Proof.
  unfold App.db_service.create_demo_users. cbn.
  repeat (apply app_table_ok_insert; [| done | done | vm_compute; reflexivity | done ]).
  split; intros *; rewrite ?lookup_empty; done.
Qed.

Lemma backend_serve_ok (crypt : CryptContext) (cfg : Settings)
    (analytics : AnalyticsProvider) (db : gmap string Backend.UserRecord)
    (timed : Z * backend_request) :
  backend_table_ok db → backend_table_ok (backend_serve db timed).
Proof.
  intros Hok. destruct timed as [now r]. unfold backend_serve. cbn [fst snd].
  assert (∀ cred, store_of (Backend.get_current_user now cred db) = db) as Hgate
    by (intros cred; apply backend_get_current_user_frame).
  destruct r as [salt ud|c|cred|cred|cred|req cred|cred].
  - rewrite backend_register_cases.
    destruct (db !! Backend.uc_email ud) eqn:Hfree; [exact Hok|].
    cbn. by apply backend_table_ok_insert.
  - rewrite backend_login_cases.
    destruct (db !! Backend.ul_email c) as [u|]; [|exact Hok].
    by destruct (Backend.verify_password _ _).
  - unfold Backend.get_current_user_info. rewrite Depends_read_only; [done|apply Hgate|].
    by intros u s.
  - unfold Backend.get_dashboard_data. rewrite Depends_read_only; [done|apply Hgate|].
    by intros u s.
  - unfold Backend.get_detailed_analytics. rewrite Depends_read_only; [done|apply Hgate|].
    intros u s. unfold Backend.get_detailed_analytics_body, mbind, M_bind, bind, lift.
    by destruct (Backend.check_permission u ANALYST).
  - unfold Backend.export_report. rewrite Depends_read_only; [done|apply Hgate|].
    intros u s. unfold Backend.export_report_body, mbind, M_bind, bind, lift.
    destruct (Backend.check_permission u MANAGER); [|done].
    by destruct (bool_decide _).
  - unfold Backend.get_users. rewrite Depends_read_only; [done|apply Hgate|].
    intros u s. unfold Backend.get_users_body, mbind, M_bind, bind, lift.
    by destruct (Backend.check_permission u ADMIN).
Qed.

Lemma backend_run_ok (crypt : CryptContext) (cfg : Settings)
    (analytics : AnalyticsProvider) (requests : list (Z * backend_request))
    (db : gmap string Backend.UserRecord) :
  backend_table_ok db → backend_table_ok (backend_run requests db).
Proof.
  unfold backend_run. revert db.
  induction requests as [|r requests IH]; intros db Hok; [exact Hok|].
  cbn [foldl]. apply IH. by apply backend_serve_ok.
Qed.

(** Whatever requests [src/Backend.py] serves from its seeded table, in
    whatever order and at whatever times, the table stays well formed:
    every record is stored under its own e-mail address, identifiers stay
    pairwise distinct and within 1 .. number of records, and every account
    is active (no route ever clears [is_active]). *)
Theorem backend_table_invariant (crypt : CryptContext) (cfg : Settings)
    (analytics : AnalyticsProvider) (t0 : Z) (requests : list (Z * backend_request)) :
  backend_table_ok (backend_run requests (Backend.fake_users_db t0)).
Proof. apply backend_run_ok, backend_fake_users_db_ok. Qed.

Lemma app_gate_store (cfg : Settings) (now : Z) (credentials : jwt.bearer)
    (db : gmap string App.UserRecord) :
  store_of (App.deps.get_current_active_user now credentials db) = db.
Proof.
  unfold App.deps.get_current_active_user.
  apply Depends_read_only; [apply app_get_current_user_frame|].
  intros u s. unfold App.deps.get_current_active_user_body.
  by destruct (negb (App.is_active u)).
Qed.

Lemma app_serve_ok (crypt : CryptContext) (cfg : Settings)
    (analytics : AnalyticsProvider) (db : gmap string App.UserRecord)
    (timed : Z * app_request) :
  app_table_ok db → app_table_ok (app_serve db timed).
Proof.
  intros Hok. destruct timed as [now r]. unfold app_serve. cbn [fst snd].
  destruct r as [salt ud|c|cred|cred|cred|req cred].
  - rewrite app_register_cases.
    destruct (App.auth_service.validate_password_strength _); [|exact Hok].
    destruct (db !! App.uc_email ud) eqn:Hfree; [exact Hok|].
    cbn. by apply app_table_ok_insert.
  - rewrite app_login_cases.
    destruct (db !! App.ul_email c) as [u|]; [|exact Hok].
    destruct (App.auth_service.verify_password _ _); [|exact Hok].
    destruct (App.is_active u); [|exact Hok].
    cbn. by apply app_table_ok_last_login.
  - unfold App.auth.get_current_user_info.
    rewrite Depends_read_only; [done|apply app_gate_store|]. by intros u s.
  - unfold App.endpoints.get_dashboard_data.
    rewrite Depends_read_only; [done|apply app_gate_store|].
    intros u s. unfold App.endpoints.get_dashboard_data_body, mbind, M_bind, bind, lift.
    by destruct (PermissionService.require_permission _ _).
  - unfold App.endpoints.get_detailed_analytics.
    rewrite Depends_read_only; [done|apply app_gate_store|].
    intros u s. unfold App.endpoints.get_detailed_analytics_body, mbind, M_bind, bind, lift.
    by destruct (PermissionService.require_permission _ _).
  - unfold App.endpoints.export_report.
    rewrite Depends_read_only; [done|apply app_gate_store|].
    intros u s. unfold App.endpoints.export_report_body, mbind, M_bind, bind, lift.
    by destruct (PermissionService.require_permission _ _).
Qed.

Lemma app_run_ok (crypt : CryptContext) (cfg : Settings)
    (analytics : AnalyticsProvider) (requests : list (Z * app_request))
    (db : gmap string App.UserRecord) :
  app_table_ok db → app_table_ok (app_run requests db).
Proof.
  unfold app_run. revert db.
  induction requests as [|r requests IH]; intros db Hok; [exact Hok|].
  cbn [foldl]. apply IH. by apply app_serve_ok.
Qed.

(** Whatever requests the modular application serves from its demo table,
    the table stays well formed: every record is stored under its own
    e-mail address, identifiers stay pairwise distinct and within
    1 .. number of records, and every account is active. *)
Theorem app_table_invariant (crypt : CryptContext) (cfg : Settings)
    (analytics : AnalyticsProvider) (t0 : Z) (salt : nat → string)
    (requests : list (Z * app_request)) :
  app_table_ok (app_run requests (App.db_service.create_demo_users t0 salt)).
Proof. apply app_run_ok, app_create_demo_users_ok. Qed.

(** ** Registration and login composed *)

(** Registration in [src/Backend.py] never removes or changes a record
    that is already in the table, whether it succeeds or is refused: in
    particular registering an address again does not overwrite its
    account. *)
Theorem backend_register_keeps_records (crypt : CryptContext) (cfg : Settings)
    (now : Z) (salt : string) (user_data : Backend.UserCreate)
    (db : gmap string Backend.UserRecord) (k : string) (u : Backend.UserRecord) :
  db !! k = Some u →
  store_of (Backend.register now salt user_data db) !! k = Some u.
Proof.
  intros Hu. rewrite backend_register_cases.
  destruct (db !! Backend.uc_email user_data) eqn:Hfree; [exact Hu|].
  cbn. rewrite lookup_insert_ne; [exact Hu|]. intros Heq. rewrite Heq in Hfree. congruence.
Qed.

(** Registering over the seeded administrator. *)
Lemma backend_register_keeps_records_witness :
  store_of (@Backend.register Fixtures.crypt Backend.settings 10 "salt"
              (Backend.UserCreate_init "admin@example.com" "Abcdef12" "Intruder" (Some ADMIN))
              Fixtures.backend_db) !! "admin@example.com"
  = Some (Backend.mkUserRecord 1 "admin@example.com" "Admin User" ADMIN
            Backend.seeded_hash true 0).
Proof.
  apply (backend_register_keeps_records Fixtures.crypt Backend.settings).
  vm_compute. reflexivity.
Defined.

(** In [src/Backend.py], once an address has been registered, a second
    registration of the same address, whatever its password, name and
    role, is refused with 400 "Email already registered" after a single
    membership test, and the table stays as the first registration left
    it. *)
Theorem backend_register_twice (crypt : CryptContext) (cfg : Settings)
    (now1 now2 : Z) (salt1 salt2 : string) (first second : Backend.UserCreate)
    (db : gmap string Backend.UserRecord) :
  Backend.uc_email second = Backend.uc_email first →
  Backend.register now2 salt2 second (store_of (Backend.register now1 salt1 first db))
  = (Raise (HTTPException HTTP_400_BAD_REQUEST "Email already registered"),
     store_of (Backend.register now1 salt1 first db), [OpContains]).
Proof.
  intros Hsame. rewrite (backend_register_cases _ _ now2), Hsame.
  rewrite (backend_register_cases _ _ now1).
  destruct (db !! Backend.uc_email first) as [u|] eqn:Hfirst; cbn.
  - by rewrite Hfirst.
  - by rewrite lookup_insert_eq.
Qed.

(** The same address registered twice with different passwords and roles. *)
Lemma backend_register_twice_witness :
  let first := Backend.UserCreate_init "new@example.com" "Abcdef12" "New User" None in
  let second := Backend.UserCreate_init "new@example.com" "other" "Other" (Some ADMIN) in
  let db1 := store_of (@Backend.register Fixtures.crypt Backend.settings 10 "salt"
                         first Fixtures.backend_db) in
  @Backend.register Fixtures.crypt Backend.settings 20 "pepper" second db1
  = (Raise (HTTPException HTTP_400_BAD_REQUEST "Email already registered"),
     db1, [OpContains]).
Proof.
  apply (backend_register_twice Fixtures.crypt Backend.settings). reflexivity.
Defined.

(** In the modular application the [ValueError] that [create_user] raises
    for an address already present is caught by [register_user] and turned
    into 400 with the same message; the table is left as it was.  So a
    second registration of an address fails in this way whenever its
    password passes the strength check. *)
Theorem app_register_duplicate (crypt : CryptContext) (cfg : Settings)
    (now : Z) (salt : string) (user_data : App.UserCreate)
    (db : gmap string App.UserRecord) :
  is_Some (db !! App.uc_email user_data) →
  App.db_service.create_user now salt user_data db
  = (Raise (ValueError "Email already registered"), db, [OpContains])
  ∧ (App.auth_service.validate_password_strength (App.uc_password user_data) = true →
     App.auth.register_user now salt user_data db
     = (Raise (HTTPException HTTP_400_BAD_REQUEST "Email already registered"),
        db, [OpContains])).
Proof.
  intros [u Hu]. split.
  - unfold App.db_service.create_user, mbind, M_bind, bind, store_access.
    rewrite bool_decide_eq_true_2 by eauto. reflexivity.
  - intros Hstrong. by rewrite app_register_cases, Hstrong, Hu.
Qed.

(** The demo analyst registered again. *)
Lemma app_register_duplicate_witness :
  @App.auth.register_user Fixtures.crypt Backend.settings 10 "salt"
    (App.UserCreate_init "analyst@example.com" "Abcdef12" "Again" (Some ADMIN))
    Fixtures.app_db
  = (Raise (HTTPException HTTP_400_BAD_REQUEST "Email already registered"),
     Fixtures.app_db, [OpContains]).
Proof.
  apply (app_register_duplicate Fixtures.crypt Backend.settings 10 "salt"
           (App.UserCreate_init "analyst@example.com" "Abcdef12" "Again" (Some ADMIN))
           Fixtures.app_db).
  - vm_compute. eauto.
  - vm_compute. reflexivity.
Defined.

(** In [src/Backend.py], when the hasher verifies the digest it produced,
    a user who has just registered can log in with the same address and
    password: the login returns a token and the very user data the
    registration returned, and writes nothing. *)
Theorem backend_register_then_login (crypt : CryptContext) (cfg : Settings)
    (now1 now2 : Z) (salt : string) (user_data : Backend.UserCreate)
    (db : gmap string Backend.UserRecord) :
  db !! Backend.uc_email user_data = None →
  pwd_verify (Backend.uc_password user_data)
    (pwd_hash salt (Backend.uc_password user_data)) = true →
  ∃ registered logged_in db',
    Backend.register now1 salt user_data db = (Ok registered, db', [OpContains; OpLen; OpSetItem])
    ∧ Backend.login now2
        (Backend.mkUserLogin (Backend.uc_email user_data) (Backend.uc_password user_data)) db'
      = (Ok logged_in, db', [OpGet])
    ∧ Backend.user logged_in = Backend.user registered.
Proof.
  intros Hfree Hhash. rewrite backend_register_cases, Hfree. cbn zeta.
  do 3 eexists. split; [reflexivity|].
  rewrite backend_login_cases. cbn [Backend.ul_email Backend.ul_password].
  rewrite lookup_insert_eq.
  unfold Backend.verify_password, backend_new_user, Backend.get_password_hash.
  cbn [Backend.hashed_password]. rewrite Hhash. split; reflexivity.
Qed.

(** A new user on the fixtures. *)
Lemma backend_register_then_login_witness :
  ∃ registered logged_in db',
    @Backend.register Fixtures.crypt Backend.settings 10 "salt"
      (Backend.UserCreate_init "new@example.com" "Abcdef12" "New User" None)
      Fixtures.backend_db
    = (Ok registered, db', [OpContains; OpLen; OpSetItem])
    ∧ @Backend.login Fixtures.crypt Backend.settings 20
        (Backend.mkUserLogin "new@example.com" "Abcdef12") db'
      = (Ok logged_in, db', [OpGet])
    ∧ Backend.user logged_in = Backend.user registered.
Proof.
  apply (backend_register_then_login Fixtures.crypt Backend.settings 10 20 "salt"
           (Backend.UserCreate_init "new@example.com" "Abcdef12" "New User" None)
           Fixtures.backend_db); vm_compute; reflexivity.
Defined.

(** In [src/Backend.py] the token a registration returns authenticates its
    owner: presented at any time up to its expiry, it makes
    [get_current_user] return the record the registration stored. *)
Theorem backend_register_token_authenticates (crypt : CryptContext) (cfg : Settings)
    (now t : Z) (salt : string) (user_data : Backend.UserCreate)
    (db : gmap string Backend.UserRecord) :
  db !! Backend.uc_email user_data = None →
  t <= now + timedelta_minutes ACCESS_TOKEN_EXPIRE_MINUTES →
  ∃ registered db' u,
    Backend.register now salt user_data db = (Ok registered, db', [OpContains; OpLen; OpSetItem])
    ∧ Backend.get_current_user t (Backend.access_token registered) db' = (Ok u, db', [OpGet])
    ∧ Backend.User_of u = Backend.user registered
    ∧ Backend.role u = Backend.uc_role user_data.
Proof.
  intros Hfree Ht. rewrite backend_register_cases, Hfree. cbn zeta.
  do 3 eexists. split; [reflexivity|]. cbn [Backend.access_token].
  rewrite get_current_user_issued.
  destruct (Z.ltb_spec (now + timedelta_minutes ACCESS_TOKEN_EXPIRE_MINUTES) t); [lia|].
  rewrite lookup_insert_eq. repeat split; reflexivity.
Qed.

(** A new administrator, its token used half an hour later. *)
Lemma backend_register_token_authenticates_witness :
  ∃ registered db' u,
    @Backend.register Fixtures.crypt Backend.settings 10 "salt"
      (Backend.UserCreate_init "new@example.com" "Abcdef12" "New User" (Some ADMIN))
      Fixtures.backend_db
    = (Ok registered, db', [OpContains; OpLen; OpSetItem])
    ∧ @Backend.get_current_user Backend.settings 1810 (Backend.access_token registered) db'
      = (Ok u, db', [OpGet])
    ∧ Backend.User_of u = Backend.user registered
    ∧ Backend.role u = ADMIN.
Proof.
  apply (backend_register_token_authenticates Fixtures.crypt Backend.settings 10 1810 "salt"
           (Backend.UserCreate_init "new@example.com" "Abcdef12" "New User" (Some ADMIN))
           Fixtures.backend_db); vm_compute; congruence.
Defined.

(** ** The user table of the modular application *)

(** [update_last_login] never raises, also for an address the table does
    not hold, in which case it changes nothing; for a stored address it
    rebinds [last_login] of that one record and leaves every other record
    as it is. *)
Theorem update_last_login_effect (now : Z) (email : string)
    (db : gmap string App.UserRecord) :
  result_of (App.db_service.update_last_login now email db) = Ok tt
  ∧ (db !! email = None → store_of (App.db_service.update_last_login now email db) = db)
  ∧ store_of (App.db_service.update_last_login now email db) !! email
    = App.with_last_login now <$> db !! email
  ∧ (∀ k, k ≠ email →
       store_of (App.db_service.update_last_login now email db) !! k = db !! k).
Proof.
  unfold App.db_service.update_last_login, mbind, M_bind, bind, store_access.
  destruct (db !! email) as [u|] eqn:Hu.
  - rewrite bool_decide_eq_true_2 by eauto. cbn.
    split; [done|]. split; [done|]. split.
    + by rewrite lookup_alter_eq, Hu.
    + intros k Hk. by rewrite lookup_alter_ne.
  - rewrite bool_decide_eq_false_2 by (intros [? ?]; congruence). cbn.
    split; [done|]. split; [done|]. split; [by rewrite Hu|done].
Qed.

(** [create_user] followed by [get_user_by_email]: a user created under a
    free address is found under that address, with identifier one more
    than the number of records before, no last login, and active. *)
Theorem create_user_then_get (crypt : CryptContext) (now : Z) (salt : string)
    (user_data : App.UserCreate) (db : gmap string App.UserRecord) :
  db !! App.uc_email user_data = None →
  ∃ u db',
    App.db_service.create_user now salt user_data db
    = (Ok u, db', [OpContains; OpLen; OpSetItem])
    ∧ App.db_service.get_user_by_email
        (Some (jwt.ClaimStr (App.uc_email user_data))) db'
      = (Ok (Some u), db', [OpGet])
    ∧ App.user_id u = (size db + 1)%nat
    ∧ size db' = (size db + 1)%nat
    ∧ App.is_active u = true
    ∧ App.last_login u = None.
Proof.
  intros Hfree.
  unfold App.db_service.create_user, App.db_service.get_user_by_email,
    mbind, M_bind, bind, store_access.
  rewrite bool_decide_eq_false_2 by (intros [? ?]; congruence). cbn.
  do 2 eexists. split; [reflexivity|].
  rewrite lookup_insert_eq. repeat split.
  rewrite map_size_insert_None by done. lia.
Qed.

(** A fifth user on the demo table. *)
Lemma create_user_then_get_witness :
  ∃ u db',
    @App.db_service.create_user Fixtures.crypt 10 "salt"
      (App.UserCreate_init "new@example.com" "Abcdef12" "New User" None)
      (@App.db_service.create_demo_users Fixtures.crypt 0 (λ _, "salt"))
    = (Ok u, db', [OpContains; OpLen; OpSetItem])
    ∧ App.db_service.get_user_by_email (Some (jwt.ClaimStr "new@example.com")) db'
      = (Ok (Some u), db', [OpGet])
    ∧ App.user_id u = 5%nat
    ∧ size db' = 5%nat
    ∧ App.is_active u = true
    ∧ App.last_login u = None.
Proof.
  apply (create_user_then_get Fixtures.crypt 10 "salt"
           (App.UserCreate_init "new@example.com" "Abcdef12" "New User" None)
           (@App.db_service.create_demo_users Fixtures.crypt 0 (λ _, "salt"))).
  vm_compute. reflexivity.
Defined.

(** A login that fails, for whatever reason, writes nothing; a login that
    succeeds rebinds [last_login] of the one record it logged in, to the
    time of the login, and the response shows that new timestamp. *)
Theorem login_user_effect (crypt : CryptContext) (cfg : Settings) (now : Z)
    (credentials : App.UserLogin) (db : gmap string App.UserRecord) :
  match result_of (App.auth.login_user now credentials db) with
  | Raise _ => store_of (App.auth.login_user now credentials db) = db
  | Ok token =>
      store_of (App.auth.login_user now credentials db)
      = alter (App.with_last_login now) (App.ul_email credentials) db
      ∧ App.ur_last_login (App.user token) = Some now
      ∧ (App.UserResponse_of <$>
           store_of (App.auth.login_user now credentials db) !! App.ul_email credentials)
        = Some (App.user token)
  end.
Proof.
  rewrite app_login_cases.
  destruct (db !! App.ul_email credentials) as [u|] eqn:Hu; [|reflexivity].
  destruct (App.auth_service.verify_password _ _); [|reflexivity].
  destruct (App.is_active u); [|reflexivity].
  cbn. repeat split. by rewrite lookup_alter_eq, Hu.
Qed.

(** In the modular application, when the hasher verifies the digest it
    produced, a user who has just registered can log in with the same
    address and password; the login reports the registered user with the
    login time as [last_login]. *)
Theorem app_register_then_login (crypt : CryptContext) (cfg : Settings)
    (now1 now2 : Z) (salt : string) (user_data : App.UserCreate)
    (db : gmap string App.UserRecord) :
  db !! App.uc_email user_data = None →
  App.auth_service.validate_password_strength (App.uc_password user_data) = true →
  pwd_verify (App.uc_password user_data)
    (pwd_hash salt (App.uc_password user_data)) = true →
  ∃ registered logged_in,
    result_of (App.auth.register_user now1 salt user_data db) = Ok registered
    ∧ result_of (App.auth.login_user now2
                   (App.mkUserLogin (App.uc_email user_data) (App.uc_password user_data))
                   (store_of (App.auth.register_user now1 salt user_data db)))
      = Ok logged_in
    ∧ App.ur_id (App.user logged_in) = App.ur_id (App.user registered)
    ∧ App.ur_role (App.user logged_in) = App.uc_role user_data
    ∧ App.ur_last_login (App.user registered) = None
    ∧ App.ur_last_login (App.user logged_in) = Some now2.
Proof.
  intros Hfree Hstrong Hhash.
  rewrite app_register_cases, Hstrong, Hfree. cbn zeta.
  do 2 eexists. split; [reflexivity|].
  cbn [store_of fst snd]. rewrite app_login_cases.
  cbn [App.ul_email App.ul_password]. rewrite lookup_insert_eq.
  unfold App.auth_service.verify_password, app_new_user,
    App.auth_service.get_password_hash.
  cbn [App.hashed_password App.is_active]. rewrite Hhash.
  repeat split; reflexivity.
Qed.

(** A new user on the demo table. *)
Lemma app_register_then_login_witness :
  ∃ registered logged_in,
    result_of (@App.auth.register_user Fixtures.crypt Backend.settings 10 "salt"
                 (App.UserCreate_init "new@example.com" "Abcdef12" "New User" None)
                 Fixtures.app_db) = Ok registered
    ∧ result_of (@App.auth.login_user Fixtures.crypt Backend.settings 20
                   (App.mkUserLogin "new@example.com" "Abcdef12")
                   (store_of (@App.auth.register_user Fixtures.crypt Backend.settings 10
                                "salt"
                                (App.UserCreate_init "new@example.com" "Abcdef12"
                                   "New User" None)
                                Fixtures.app_db)))
      = Ok logged_in
    ∧ App.ur_id (App.user logged_in) = App.ur_id (App.user registered)
    ∧ App.ur_role (App.user logged_in) = VIEWER
    ∧ App.ur_last_login (App.user registered) = None
    ∧ App.ur_last_login (App.user logged_in) = Some 20.
Proof.
  apply (app_register_then_login Fixtures.crypt Backend.settings 10 20 "salt"
           (App.UserCreate_init "new@example.com" "Abcdef12" "New User" None)
           Fixtures.app_db); vm_compute; reflexivity.
Defined.

(** ** The gate of the modular application *)

(** [get_current_user] of [app/api/deps.py] returns a user only when the
    token was accepted, its [sub] is a string under which the table holds
    that very user, and the user is active. *)
Theorem app_get_current_user_sound (cfg : Settings) (now : Z)
    (credentials : jwt.bearer) (db : gmap string App.UserRecord) (u : App.UserRecord) :
  result_of (App.deps.get_current_user now credentials db) = Ok u →
  App.is_active u = true
  ∧ ∃ (payload : gmap string jwt.claim) (s : string),
      App.auth_service.verify_token now credentials = Ok payload
      ∧ payload !! "sub" = Some (jwt.ClaimStr s)
      ∧ db !! s = Some u.
Proof.
  unfold App.deps.get_current_user, App.db_service.get_user_by_email,
    mbind, M_bind, bind, lift, store_access.
  destruct (App.auth_service.verify_token now credentials) as [payload|e];
    [|cbn; discriminate].
  destruct (payload !! "sub") as [[s|n]|] eqn:Hsub; try (cbn; discriminate).
  destruct (db !! s) as [u'|] eqn:Hu; [|cbn; discriminate].
  destruct (App.is_active u') eqn:Hact; cbn; [|discriminate].
  intros [= <-]. split; [done|]. by exists payload, s.
Qed.

(** The demo manager with a fresh token. *)
Lemma app_get_current_user_sound_witness :
  ∃ u, result_of (@App.deps.get_current_user Backend.settings 10
                    (Fixtures.token_for 0 "manager@example.com") Fixtures.app_db) = Ok u
       ∧ App.is_active u = true
       ∧ App.role u = MANAGER.
Proof.
  eexists. split; [vm_compute; reflexivity|].
  split; [|reflexivity].
  eapply (app_get_current_user_sound Backend.settings 10
            (Fixtures.token_for 0 "manager@example.com") Fixtures.app_db).
  vm_compute. reflexivity.
Defined.

(** What [get_current_user] of [app/api/deps.py] does, by cases. *)
Lemma app_get_current_user_cases (cfg : Settings) (now : Z)
    (credentials : jwt.bearer) (db : gmap string App.UserRecord) :
  App.deps.get_current_user now credentials db
  = match App.auth_service.verify_token now credentials with
    | Raise e => (Raise e, db, [])
    | Ok payload =>
        (match match payload !! "sub" with
               | Some (jwt.ClaimStr s) => db !! s
               | _ => None
               end with
         | Some u =>
             if App.is_active u then Ok u
             else Raise (HTTPException HTTP_401_UNAUTHORIZED "User not found or inactive")
         | None => Raise (HTTPException HTTP_401_UNAUTHORIZED "User not found or inactive")
         end, db, [OpGet])
    end.
Proof.
  unfold App.deps.get_current_user, App.db_service.get_user_by_email,
    mbind, M_bind, bind, lift, store_access.
  destruct (App.auth_service.verify_token now credentials) as [payload|e]; [|reflexivity].
  destruct (match payload !! "sub" with
            | Some (jwt.ClaimStr s) => db !! s
            | _ => None
            end) as [u|]; [|reflexivity].
  by destruct (App.is_active u).
Qed.

(** The check of [get_current_active_user] never fires: a user that
    [get_current_user] lets through is active already, so on every input
    the two dependencies give the same outcome, leave the same table and
    perform the same dictionary operations; the 400 "Inactive user" of the
    second is dead code. *)
Theorem get_current_active_user_redundant (cfg : Settings) (now : Z)
    (credentials : jwt.bearer) (db : gmap string App.UserRecord) :
  App.deps.get_current_active_user now credentials db
  = App.deps.get_current_user now credentials db.
Proof.
  unfold App.deps.get_current_active_user, Depends, bind.
  rewrite app_get_current_user_cases.
  destruct (App.auth_service.verify_token now credentials) as [payload|e]; [|reflexivity].
  destruct (match payload !! "sub" with
            | Some (jwt.ClaimStr s) => db !! s
            | _ => None
            end) as [u|]; [|reflexivity].
  unfold App.deps.get_current_active_user_body.
  destruct (App.is_active u) eqn:Hact; [|reflexivity].
  rewrite Hact. reflexivity.
Qed.

(** From the demo table no sequence of requests leads to a state in which
    a login is refused as "Inactive user account": every account the
    routes can create is active and no route clears the flag.  In every
    such state a login either succeeds or fails with 401 "Invalid email or
    password". *)
Theorem inactive_account_unreachable (crypt : CryptContext) (cfg : Settings)
    (analytics : AnalyticsProvider) (t0 : Z) (salt : nat → string)
    (requests : list (Z * app_request)) (now : Z) (credentials : App.UserLogin) :
  (∃ token,
     result_of (App.auth.login_user now credentials
                  (app_run requests (App.db_service.create_demo_users t0 salt)))
     = Ok token)
  ∨ result_of (App.auth.login_user now credentials
                 (app_run requests (App.db_service.create_demo_users t0 salt)))
    = Raise (HTTPException HTTP_401_UNAUTHORIZED "Invalid email or password").
Proof.
  pose proof (app_run_ok crypt cfg analytics requests _
                (app_create_demo_users_ok crypt t0 salt)) as Hok.
  rewrite app_login_cases.
  destruct (app_run requests _ !! App.ul_email credentials) as [u|] eqn:Hu;
    [|by right].
  rewrite (app_all_active _ Hok _ _ Hu).
  destruct (App.auth_service.verify_password _ _); [left; eexists|right]; reflexivity.
Qed.

(** ** The role hierarchy *)

Lemma permissions_of_role (r : UserRole) :
  PermissionService.permissions_of (value r)
  = match r with
    | VIEWER => ["dashboard:read"]
    | ANALYST => ["dashboard:read"; "analytics:read"]
    | MANAGER => ["dashboard:read"; "analytics:read"; "reports:export"]
    | ADMIN => ["dashboard:read"; "analytics:read"; "reports:export"; "users:manage"]
    end.
Proof. destruct r; vm_compute; reflexivity. Qed.

(** Both enforcement models are monotone along the order
    viewer < analyst < manager < admin: whatever a role may do, every
    role of the same or a higher level may do.  In [src/Backend.py] a user
    passes every level check that a user of a lower or equal level passes;
    in the permission table a role holds every permission that a role of a
    lower or equal level holds, for every permission string. *)
Theorem role_hierarchy_monotone (lower higher : UserRole) :
  Backend.level lower <= Backend.level higher →
  (∀ (u1 u2 : Backend.UserRecord) (required : UserRole),
     Backend.role u1 = lower → Backend.role u2 = higher →
     is_ok (Backend.check_permission u1 required) = true →
     is_ok (Backend.check_permission u2 required) = true)
  ∧ (∀ p : string,
       PermissionService.check_permission (value lower) p = true →
       PermissionService.check_permission (value higher) p = true).
Proof.
  intros Hle. split.
  - intros u1 u2 required H1 H2. rewrite !check_permission_level, H1, H2.
    intros Hok%bool_decide_eq_true_1. apply bool_decide_eq_true_2. lia.
  - intros p Hp%bool_decide_eq_true_1.
    apply bool_decide_eq_true_2.
    rewrite permissions_of_role in Hp |- *.
    destruct lower, higher; try (vm_compute in Hle; congruence);
      repeat rewrite elem_of_cons in Hp; repeat rewrite elem_of_cons;
      rewrite elem_of_nil in Hp; tauto.
Qed.

(** An analyst and a manager. *)
Lemma role_hierarchy_monotone_witness :
  PermissionService.check_permission (value MANAGER) "analytics:read" = true.
Proof.
  apply (role_hierarchy_monotone ANALYST MANAGER).
  - vm_compute. congruence.
  - vm_compute. reflexivity.
Defined.

(** ** The user listing and the lifetime of tokens in [src/Backend.py] *)

Lemma get_users_body_admin (current_user : Backend.UserRecord)
    (db : gmap string Backend.UserRecord) :
  Backend.role current_user = ADMIN →
  Backend.get_users_body current_user db
  = (Ok (Backend.User_of <$> (map_to_list db).*2), db, [OpValues]).
Proof.
  intros Hrole.
  unfold Backend.get_users_body, Backend.check_permission, Backend.db_values,
    mbind, M_bind, bind, lift, store_access.
  rewrite Hrole. reflexivity.
Qed.

(** [get_users]: a user below the admin level is refused with 403 before
    the table is enumerated; for an administrator the listing has exactly
    one entry per stored record, namely the public fields of that record
    (the password hash is no field of the response model). *)
Theorem get_users_listing (current_user : Backend.UserRecord)
    (db : gmap string Backend.UserRecord) :
  (Backend.role current_user ≠ ADMIN →
     Backend.get_users_body current_user db
     = (Raise (HTTPException HTTP_403_FORBIDDEN "Insufficient permissions"), db, []))
  ∧ (Backend.role current_user = ADMIN →
     ∃ users,
       Backend.get_users_body current_user db = (Ok users, db, [OpValues])
       ∧ length users = size db
       ∧ ∀ x, x ∈ users ↔ ∃ k r, db !! k = Some r ∧ x = Backend.User_of r).
Proof.
  unfold Backend.get_users_body, Backend.check_permission, Backend.db_values,
    mbind, M_bind, bind, lift, store_access.
  split; intros Hrole.
  - destruct (Backend.role current_user); [congruence|reflexivity..].
  - rewrite Hrole. cbn. eexists. split; [reflexivity|]. split.
    + by rewrite !length_fmap, length_map_to_list.
    + intros x. rewrite list_elem_of_fmap. split.
      * intros (r & -> & Hr). apply list_elem_of_fmap in Hr as ([k r'] & -> & Hkr).
        apply elem_of_map_to_list in Hkr. by exists k, r'.
      * intros (k & r & Hkr & ->). exists r. split; [done|].
        apply list_elem_of_fmap. exists (k, r). split; [done|].
        by apply elem_of_map_to_list.
Qed.

(** The seeded manager and administrator asking for the listing. *)
Lemma get_users_listing_witness :
  Backend.get_users_body
    (Backend.mkUserRecord 2 "manager@example.com" "Manager User" MANAGER
       Backend.seeded_hash true 0) Fixtures.backend_db
  = (Raise (HTTPException HTTP_403_FORBIDDEN "Insufficient permissions"),
     Fixtures.backend_db, [])
  ∧ ∃ users,
      Backend.get_users_body
        (Backend.mkUserRecord 1 "admin@example.com" "Admin User" ADMIN
           Backend.seeded_hash true 0) Fixtures.backend_db
      = (Ok users, Fixtures.backend_db, [OpValues])
      ∧ length users = 5%nat.
Proof.
  split.
  - apply get_users_listing. discriminate.
  - destruct (get_users_listing
                (Backend.mkUserRecord 1 "admin@example.com" "Admin User" ADMIN
                   Backend.seeded_hash true 0) Fixtures.backend_db) as [_ Hadmin].
    destruct (Hadmin eq_refl) as (users & Hrun & Hlen & _).
    exists users. split; [exact Hrun|]. rewrite Hlen. vm_compute. reflexivity.
Defined.

(** No claim handed to [create_access_token] can lengthen the life of the
    token: an [exp] among the given claims is overwritten, every other
    claim is kept, and whatever the claims (strings and integers) the token
    is refused with 401 by [get_current_user], before the user table is
    looked at, at every time after issuance plus the configured lifetime. *)
Theorem create_access_token_lifetime (cfg : Settings) (now t : Z)
    (data : gmap string jwt.claim) (db : gmap string Backend.UserRecord) :
  ∃ claims,
    Backend.create_access_token now data = jwt.Signed ALGORITHM SECRET_KEY claims
    ∧ claims !! "exp"
      = Some (jwt.ClaimInt (now + timedelta_minutes ACCESS_TOKEN_EXPIRE_MINUTES))
    ∧ (∀ k, k ≠ "exp" → claims !! k = data !! k)
    ∧ (now + timedelta_minutes ACCESS_TOKEN_EXPIRE_MINUTES < t →
       Backend.get_current_user t (Backend.create_access_token now data) db
       = (Raise Backend.credentials_exception, db, [])).
Proof.
  unfold Backend.create_access_token, jwt.encode. eexists. split; [reflexivity|].
  split; [apply lookup_insert_eq|]. split.
  - intros k Hk. by rewrite lookup_insert_ne.
  - intros Hlate. rewrite backend_get_current_user_cases.
    unfold jwt.decode, jwt.validate_claims.
    rewrite bool_decide_eq_true_2 by (apply list_elem_of_singleton; reflexivity).
    rewrite bool_decide_eq_true_2 by reflexivity. cbn [negb].
    rewrite lookup_insert_eq.
    destruct (Z.ltb_spec (now + timedelta_minutes ACCESS_TOKEN_EXPIRE_MINUTES) t);
      [reflexivity|lia].
Qed.

(** A caller that asks for an expiry far in the future. *)
Lemma create_access_token_lifetime_witness :
  @Backend.get_current_user Backend.settings 1801
    (@Backend.create_access_token Backend.settings 0
       (<["exp" := jwt.ClaimInt 4102444800]> {["sub" := jwt.ClaimStr "admin@example.com"]}))
    Fixtures.backend_db
  = (Raise Backend.credentials_exception, Fixtures.backend_db, []).
Proof.
  destruct (create_access_token_lifetime Backend.settings 0 1801
              (<["exp" := jwt.ClaimInt 4102444800]>
                 {["sub" := jwt.ClaimStr "admin@example.com"]}) Fixtures.backend_db)
    as (claims & _ & _ & _ & Hlate).
  apply Hlate. vm_compute. reflexivity.
Defined.

(** ** The dashboard fixtures *)

Lemma randint_bounds (a b raw : Z) : a <= b → a <= randint a b raw <= b.
Proof.
  intros Hab. unfold randint.
  pose proof (Z.mod_pos_bound raw (b - a + 1) ltac:(lia)). lia.
Qed.

Lemma point_within_randint (lo hi offset a b raw date : Z) (category : option string) :
  a <= b → lo <= offset + a → offset + b <= hi →
  point_within lo hi
    (mkChartDataPoint date (float_of_int (offset + randint a b raw)) category) = true.
Proof.
  intros Hab Hlo Hhi. pose proof (randint_bounds a b raw Hab).
  unfold point_within, float_of_int. cbn [point_value].
  apply andb_true_intro. split; apply Z.leb_le; lia.
Qed.

Lemma point_within_randint_plain (lo hi a b raw date : Z) (category : option string) :
  a <= b → lo <= a → b <= hi →
  point_within lo hi (mkChartDataPoint date (float_of_int (randint a b raw)) category)
  = true.
Proof.
  intros Hab Hlo Hhi. pose proof (randint_bounds a b raw Hab).
  unfold point_within, float_of_int. cbn [point_value].
  apply andb_true_intro. split; apply Z.leb_le; lia.
Qed.

(** Whatever the role, the day and the outputs of the random generator,
    [get_dashboard_data] returns three charts in the order revenue,
    categories, demographics: 30 daily revenue points dated from 30 days
    ago to yesterday in order, each a whole number from 3500 to 5000; one
    point per category in the listed order, dated today, each from 1000 to
    5000; and one point per age group, dated today, each from 500 to
    2000. *)
Theorem dashboard_charts_shape (user_role : string) (today : Z) (rng : nat → Z) :
  ∃ revenue category demo,
    charts (analytics_service.get_dashboard_data user_role today rng)
    = [revenue; category; demo]
    ∧ (length (chart_data revenue) = 30%nat
       ∧ Forall (λ p, point_within 3500 5000 p = true) (chart_data revenue)
       ∧ point_date <$> chart_data revenue
         = (λ i : nat, today - 30 + Z.of_nat i) <$> seq 0 30)
    ∧ (Forall (λ p, point_within 1000 5000 p = true ∧ point_date p = today)
         (chart_data category)
       ∧ point_category <$> chart_data category
         = Some <$> ["Electronics"; "Clothing"; "Books"; "Home & Garden"; "Sports"])
    ∧ (Forall (λ p, point_within 500 2000 p = true ∧ point_date p = today)
         (chart_data demo)
       ∧ point_category <$> chart_data demo
         = Some <$> ["18-24"; "25-34"; "35-44"; "45-54"; "55+"]).
Proof.
  do 3 eexists. split; [reflexivity|]. split; [|split].
  - split; [reflexivity|]. split; [|reflexivity].
    cbn [analytics_service.generate_revenue_chart chart_data].
    cbv zeta. apply Forall_fmap, Forall_seq. intros i _. unfold compose.
    apply point_within_randint; lia.
  - split; [|reflexivity].
    cbn [analytics_service.generate_category_chart chart_data]. cbv zeta.
    apply Forall_forall. intros p (j & x & -> & _)%elem_of_lookup_imap.
    split; [apply point_within_randint_plain; lia|reflexivity].
  - split; [|reflexivity].
    cbn [analytics_service.generate_demographics_chart chart_data]. cbv zeta.
    apply Forall_forall. intros p (j & x & -> & _)%elem_of_lookup_imap.
    split; [apply point_within_randint_plain; lia|reflexivity].
Qed.

Lemma analytics_read_roles (user_role : string) :
  PermissionService.check_permission user_role "analytics:read"
  = bool_decide (user_role ∈ ["analyst"; "manager"; "admin"]).
Proof.
  unfold PermissionService.check_permission.
  destruct (decide (user_role = "admin")) as [->|Hadmin]; [vm_compute; reflexivity|].
  destruct (decide (user_role = "manager")) as [->|Hmanager]; [vm_compute; reflexivity|].
  destruct (decide (user_role = "analyst")) as [->|Hanalyst]; [vm_compute; reflexivity|].
  rewrite (bool_decide_eq_false_2 (user_role ∈ _)).
  2:{ repeat rewrite elem_of_cons. rewrite elem_of_nil. tauto. }
  apply bool_decide_eq_false_2.
  destruct (decide (user_role = "viewer")) as [->|Hviewer].
  - vm_compute. intros Hin. repeat (apply elem_of_cons in Hin as [Hin|Hin]; [discriminate|]).
    by apply elem_of_nil in Hin.
  - rewrite permissions_of_unknown; [apply not_elem_of_nil|].
    intros []; assumption.
Qed.

(** The advanced metrics of [generate_metrics] go to exactly the roles
    that hold ["analytics:read"] in the permission table: for every role
    string the result is the three base metrics, followed by the two
    advanced ones when the table grants that permission and by nothing
    otherwise (a viewer, or a string that is no role). *)
Theorem generate_metrics_gate (user_role : string) :
  analytics_service.generate_metrics user_role
  = analytics_service.base_metrics
    ++ (if PermissionService.check_permission user_role "analytics:read"
        then analytics_service.advanced_metrics else []).
Proof.
  rewrite analytics_read_roles. unfold analytics_service.generate_metrics.
  destruct (bool_decide _); [reflexivity|]. by rewrite app_nil_r.
Qed.

(** Every response the fixtures produce satisfies the [regex] constraints
    of its own schema, whatever the role, the day and the random outputs:
    each metric is an ["increase"] or a ["decrease"] and each chart a
    ["line"], ["bar"] or ["pie"].  This holds for [get_dashboard_data]
    and for [generate_sample_data] with or without the detailed metrics. *)
Theorem dashboard_responses_valid (user_role : string) (today : Z) (rng : nat → Z) :
  DashboardResponse_valid (analytics_service.get_dashboard_data user_role today rng) = true
  ∧ DashboardResponse_valid (sample_data.generate today rng) = true
  ∧ DashboardResponse_valid (sample_data.extend (sample_data.generate today rng)) = true.
Proof.
  split; [|split; reflexivity].
  unfold analytics_service.get_dashboard_data, analytics_service.generate_metrics.
  by destruct (bool_decide _).
Qed.

(** The charts that [generate_sample_data] of [src/Backend.py] writes out
    by hand are those of [AnalyticsService]: from the same day and the
    same random outputs the two produce the same three charts, whatever
    the role.  The detailed analytics of [src/Backend.py], for a user of
    level analyst or more, are its dashboard with three metrics appended
    and the charts unchanged. *)
Theorem sample_data_agrees (user_role : string) (today : Z) (rng : nat → Z)
    (current_user : Backend.UserRecord) (db : gmap string Backend.UserRecord) :
  charts (sample_data.generate today rng)
  = charts (analytics_service.get_dashboard_data user_role today rng)
  ∧ (is_ok (Backend.check_permission current_user ANALYST) = true →
     ∃ dashboard detailed,
       @Backend.get_dashboard_data_body (source_analytics today rng) current_user db
       = (Ok dashboard, db, [])
       ∧ @Backend.get_detailed_analytics_body (source_analytics today rng) current_user db
         = (Ok detailed, db, [])
       ∧ metrics detailed = metrics dashboard ++ sample_data.detailed_metrics
       ∧ charts detailed = charts dashboard
       ∧ length (metrics dashboard) = 4%nat
       ∧ length (metrics detailed) = 7%nat).
Proof.
  split; [reflexivity|].
  intros Hok. unfold Backend.get_dashboard_data_body, Backend.get_detailed_analytics_body,
    mbind, M_bind, bind, lift.
  destruct (Backend.check_permission current_user ANALYST); [|discriminate].
  do 2 eexists. repeat split.
Qed.

(** The seeded analyst. *)
Lemma sample_data_agrees_witness :
  ∃ detailed,
    @Backend.get_detailed_analytics_body (source_analytics 19000 (λ i, Z.of_nat i))
      (Backend.mkUserRecord 3 "analyst@example.com" "Data Analyst" ANALYST
         Backend.seeded_hash true 0) Fixtures.backend_db
    = (Ok detailed, Fixtures.backend_db, [])
    ∧ length (metrics detailed) = 7%nat.
Proof.
  destruct (sample_data_agrees "analyst" 19000 (λ i, Z.of_nat i)
              (Backend.mkUserRecord 3 "analyst@example.com" "Data Analyst" ANALYST
                 Backend.seeded_hash true 0) Fixtures.backend_db) as [_ Hdetail].
  destruct (Hdetail eq_refl) as (dashboard & detailed & _ & Hrun & _ & _ & _ & Hlen).
  exists detailed. split; [exact Hrun|exact Hlen].
Defined.

(** In the modular application the detailed analytics add nothing to the
    dashboard: for a user who holds ["analytics:read"] the two handlers
    return the same data (both call [get_dashboard_data] on the user's
    role); a user without it gets the dashboard and is refused the
    detailed view with 403. *)
Theorem app_detailed_is_dashboard (analytics : AnalyticsProvider)
    (current_user : App.UserRecord) (db : gmap string App.UserRecord) :
  (PermissionService.check_permission (value (App.role current_user)) "analytics:read"
   = true →
   App.endpoints.get_detailed_analytics_body current_user db
   = App.endpoints.get_dashboard_data_body current_user db)
  ∧ (PermissionService.check_permission (value (App.role current_user)) "analytics:read"
     = false →
     App.endpoints.get_detailed_analytics_body current_user db
     = (Raise (HTTPException HTTP_403_FORBIDDEN
                 "Insufficient permissions. Required: analytics:read"), db, [])
     ∧ App.endpoints.get_dashboard_data_body current_user db
       = (Ok (get_dashboard_data_for (value (App.role current_user))), db, [])).
Proof.
  unfold App.endpoints.get_detailed_analytics_body, App.endpoints.get_dashboard_data_body,
    PermissionService.require_permission, mbind, M_bind, bind, lift.
  split; intros Hperm; rewrite Hperm.
  - destruct (App.role current_user); vm_compute in Hperm; try discriminate; reflexivity.
  - destruct (App.role current_user); vm_compute in Hperm; try discriminate.
    split; reflexivity.
Qed.

(** ** Login and self-registration followed by authenticated requests *)

(** In [src/Backend.py] the token a login returns authenticates the user
    who logged in: presented at any time up to its expiry, it makes
    [get_current_user] return the record whose data the login reported. *)
Theorem backend_login_token_authenticates (crypt : CryptContext) (cfg : Settings)
    (now t : Z) (user_credentials : Backend.UserLogin)
    (db : gmap string Backend.UserRecord) (token : Backend.Token) :
  result_of (Backend.login now user_credentials db) = Ok token →
  t <= now + timedelta_minutes ACCESS_TOKEN_EXPIRE_MINUTES →
  ∃ u,
    Backend.get_current_user t (Backend.access_token token) db = (Ok u, db, [OpGet])
    ∧ db !! Backend.ul_email user_credentials = Some u
    ∧ Backend.User_of u = Backend.user token.
Proof.
  rewrite backend_login_cases.
  destruct (db !! Backend.ul_email user_credentials) as [u|] eqn:Hu; [|discriminate].
  destruct (Backend.verify_password _ _); [|discriminate].
  cbn. intros [= <-] Ht. exists u. cbn [Backend.access_token Backend.user].
  rewrite get_current_user_issued, Hu.
  destruct (Z.ltb_spec (now + timedelta_minutes ACCESS_TOKEN_EXPIRE_MINUTES) t); [lia|].
  repeat split.
Qed.

(** The viewer of the fixtures logs in and uses the token a minute later. *)
Lemma backend_login_token_authenticates_witness :
  ∃ token u,
    result_of (@Backend.login Fixtures.crypt Backend.settings 10
                 (Backend.mkUserLogin "viewer@example.com" "secret") Fixtures.backend_db)
    = Ok token
    ∧ @Backend.get_current_user Backend.settings 70 (Backend.access_token token)
        Fixtures.backend_db
      = (Ok u, Fixtures.backend_db, [OpGet])
    ∧ Backend.role u = VIEWER.
Proof.
  eexists. 
  destruct (backend_login_token_authenticates Fixtures.crypt Backend.settings 10 70
              (Backend.mkUserLogin "viewer@example.com" "secret") Fixtures.backend_db
              (Backend.mkToken (Fixtures.token_for 10 "viewer@example.com") "bearer"
                 (Backend.User_of Fixtures.viewer_record)))
    as (u & Hrun & Hu & _); [vm_compute; reflexivity|vm_compute; congruence|].
  exists u. split; [vm_compute; reflexivity|]. split; [exact Hrun|].
  vm_compute in Hu. by injection Hu as <-.
Defined.

(** In [src/Backend.py] anyone can obtain the listing of all users: a
    registration under a free address that names the role admin returns
    a token with which [get_users], at any time up to the token's expiry,
    passes the admin check and lists every record of the table, the new
    one included. *)
Theorem self_registered_admin_lists_users (crypt : CryptContext) (cfg : Settings)
    (now t : Z) (salt email password full_name : string)
    (db : gmap string Backend.UserRecord) :
  db !! email = None →
  t <= now + timedelta_minutes ACCESS_TOKEN_EXPIRE_MINUTES →
  ∃ registered db' users,
    Backend.register now salt (Backend.UserCreate_init email password full_name (Some ADMIN)) db
    = (Ok registered, db', [OpContains; OpLen; OpSetItem])
    ∧ Backend.get_users t (Backend.access_token registered) db'
      = (Ok users, db', [OpGet; OpValues])
    ∧ length users = (size db + 1)%nat
    ∧ Backend.user registered ∈ users.
Proof.
  intros Hfree Ht. rewrite backend_register_cases.
  cbn [Backend.UserCreate_init Backend.uc_email]. rewrite Hfree. cbn zeta.
  set (new_user := backend_new_user now salt
         {| Backend.uc_email := email; Backend.uc_password := password;
            Backend.uc_full_name := full_name; Backend.uc_role := default VIEWER (Some ADMIN) |}
         (size db)).
  do 3 eexists. split; [reflexivity|]. cbn [Backend.access_token Backend.user].
  split; [|split].
  - unfold Backend.get_users, Depends, bind. rewrite get_current_user_issued.
    destruct (Z.ltb_spec (now + timedelta_minutes ACCESS_TOKEN_EXPIRE_MINUTES) t); [lia|].
    rewrite lookup_insert_eq, (get_users_body_admin new_user) by reflexivity.
    reflexivity.
  - rewrite !length_fmap, length_map_to_list, map_size_insert_None by done. lia.
  - apply list_elem_of_fmap_2. apply list_elem_of_fmap. exists (email, new_user).
    split; [reflexivity|]. apply elem_of_map_to_list, lookup_insert_eq.
Qed.

(** A stranger registering as administrator on the fixtures. *)
Lemma self_registered_admin_lists_users_witness :
  ∃ registered db' users,
    @Backend.register Fixtures.crypt Backend.settings 10 "salt"
      (Backend.UserCreate_init "new@example.com" "x" "Stranger" (Some ADMIN))
      Fixtures.backend_db
    = (Ok registered, db', [OpContains; OpLen; OpSetItem])
    ∧ @Backend.get_users Backend.settings 20 (Backend.access_token registered) db'
      = (Ok users, db', [OpGet; OpValues])
    ∧ length users = (size Fixtures.backend_db + 1)%nat
    ∧ Backend.user registered ∈ users.
Proof.
  apply (self_registered_admin_lists_users Fixtures.crypt Backend.settings 10 20 "salt"
           "new@example.com" "x" "Stranger" Fixtures.backend_db);
    vm_compute; congruence.
Defined.
